(** * Vision AI front-end: the analysis screen, in its two variants

    A shallow embedding of the two React components of the repository,

    - [Index] : [frontend/src/pages/Index.tsx], the styled / animated screen;
    - [App]   : the plain screen (same workflow, no toasts, no drag-and-drop),

    together with the parts of the JavaScript run time their code relies on:
    property reads on parsed JSON, truthiness, [Number.prototype.toFixed],
    [Array.prototype.slice] / [map], and [try] / [catch] / [finally].

    A handler is a computation in a state-and-exception monad over the
    component state (the [useState] cells) and the browser around it (network
    log, toasts, console, object-URL registry, the file input behind
    [fileInputRef]).  An [async] function is split at its [await]: the part
    run by the click, and the part resumed when the response arrives.  A run
    of a screen alternates handlers with React's commit of the next render,
    which moves the ref with the file input. *)

From Stdlib Require Import ZArith NArith List String Ascii Bool Lia.
From Stdlib Require Import DecimalString.
Import ListNotations.

Local Open Scope string_scope.
Local Open Scope Z_scope.

(* ================================================================= *)
(** ** Completions: a value, or a thrown exception *)

Inductive exn : Type :=
| TypeError     (* property read on null / undefined, call of a non-function,
                   and the rejection of [fetch] on a network failure *)
| SyntaxError   (* [response.json()] on a body that is not JSON *)
| RangeError    (* [toFixed] with a digit count outside 0..100 *)
| Error.        (* React: "Objects are not valid as a React child" *)

Inductive completion (A : Type) : Type :=
| Normal (a : A)
| Throw (e : exn).
Arguments Normal {A} a.
Arguments Throw {A} e.

Definition cbind {A B} (c : completion A) (k : A -> completion B) : completion B :=
  match c with
  | Normal a => k a
  | Throw e => Throw e
  end.

(* ================================================================= *)
(** ** Numbers: IEEE-754 binary64, and [toFixed] *)

Module Number.

(** [Finite s m e] is (-1)^s * m * 2^e, with [m < 2^53] and
    [-1074 <= e <= 971]; [m = 0] is the zero of that sign. *)
Inductive t : Type :=
| NaN
| Infinity (neg : bool)
| Finite (neg : bool) (m : Z) (e : Z).

Definition emin : Z := -1074.
Definition emax : Z := 971.

(** The quotient [a / (b * 2^e)] rounded to the nearest integer, a tie
    going to the even one. *)
Definition scaled_round (a b e : Z) : Z :=
  let num := a * 2 ^ Z.max 0 (- e) in
  let den := b * 2 ^ Z.max 0 e in
  let q := num / den in
  let r := num mod den in
  match 2 * r ?= den with
  | Lt => q
  | Gt => q + 1
  | Eq => if Z.even q then q else q + 1
  end.

(** The binary64 value nearest to the positive rational [a / b]
    (round to nearest, ties to even), as [(m, e)]; [None] on overflow. *)
Definition nearest (a b : Z) : option (Z * Z) :=
  let e0 := Z.log2 a - Z.log2 b - 52 in
  let e1 := if (a * 2 ^ Z.max 0 (- e0)) / (b * 2 ^ Z.max 0 e0) <? 2 ^ 52
            then e0 - 1 else e0 in
  let e := Z.max e1 emin in
  let m := scaled_round a b e in
  let '(m, e) := if m =? 2 ^ 53 then (2 ^ 52, e + 1) else (m, e) in
  if emax <? e then None else Some (m, e).

(** The Number a decimal literal [d * 10^k] denotes ([0 <= d]): what
    [JSON.parse] and the JavaScript lexer produce for it. *)
Definition of_decimal (neg : bool) (d k : Z) : t :=
  if d <=? 0 then Finite neg 0 0
  else match nearest (d * 10 ^ Z.max 0 k) (10 ^ Z.max 0 (- k)) with
       | Some (m, e) => Finite neg m e
       | None => Infinity neg
       end.

Definition is_zero_or_nan (x : t) : bool :=
  match x with
  | NaN => true
  | Infinity _ => false
  | Finite _ m _ => m =? 0
  end.

Definition digits (n : Z) : string :=
  NilZero.string_of_uint (N.to_uint (Z.to_N n)).

Fixpoint zeros (n : nat) : string :=
  match n with
  | O => ""
  | S n' => String "0" (zeros n')
  end.

Fixpoint strip_zeros_rev (l : list ascii) : list ascii :=
  match l with
  | "0"%char :: l' => strip_zeros_rev l'
  | _ => l
  end.

(** A digit string without its trailing zeros. *)
Definition strip_trailing_zeros (s : string) : string :=
  string_of_list_ascii (rev (strip_zeros_rev (rev (list_ascii_of_string s)))).

(** The integer [c] rounds to the Number [m * 2^e]. *)
Definition denotes (c m e : Z) : bool :=
  match nearest c 1 with
  | Some (m', e') => (m' * 2 ^ (e' - e) =? m) && (e <=? e')
  | None => false
  end.

(** [Number::toString] for a finite [x = m * 2^e >= 10^21]: the shortest
    digit string [s] (of [k] digits) with [s * 10^(n-k)] rounding to [x],
    in exponent notation.  Such an [x] is an integer.  With [k] digits the
    only candidates are the two multiples of [10^(p-k)] around [x]; of two
    that round to [x] the closer one is taken, the even one on a tie. *)
Fixpoint shortest (fuel : nat) (k : Z) (m e : Z) : Z :=
  let v := m * 2 ^ e in
  let p := Z.of_nat (String.length (digits v)) in
  let unit := 10 ^ (p - k) in
  let lo := v / unit * unit in
  let hi := lo + unit in
  match fuel with
  | O => v
  | S fuel' =>
      match denotes lo m e, denotes hi m e with
      | true, true =>
          if v - lo <? hi - v then lo
          else if hi - v <? v - lo then hi
          else if Z.even (lo / unit) then lo else hi
      | true, false => lo
      | false, true => hi
      | false, false => shortest fuel' (k + 1) m e
      end
  end.

Definition toString_large (m e : Z) : string :=
  let cand := digits (shortest 17 1 m e) in
  let n := Z.of_nat (String.length cand) in
  let s := strip_trailing_zeros cand in
  match s with
  | String d EmptyString => String d ("e+" ++ digits (n - 1))
  | String d rest => String d ("." ++ rest ++ "e+" ++ digits (n - 1))
  | EmptyString => "0"
  end.

(** [Number.prototype.toFixed(f)], ECMA-262 21.1.3.3:
    the integer [n] with [n / 10^f - x] closest to zero (the larger of two),
    written with [f] digits after the point. *)
Definition toFixed (x : t) (f : Z) : completion string :=
  if (f <? 0) || (100 <? f) then Throw RangeError
  else
    match x with
    | NaN => Normal "NaN"
    | Infinity false => Normal "Infinity"
    | Infinity true => Normal "-Infinity"
    | Finite neg m e =>
        let s := if neg && negb (m =? 0) then "-" else "" in
        let num := m * 2 ^ Z.max 0 e in
        let den := 2 ^ Z.max 0 (- e) in
        if 10 ^ 21 * den <=? num then Normal (s ++ toString_large m e)
        else
          let n := (2 * num * 10 ^ f + den) / (2 * den) in
          let ds := digits n in
          let fn := Z.to_nat f in
          if f =? 0 then Normal (s ++ ds)
          else
            let ds := if (String.length ds <=? fn)%nat
                      then zeros (fn + 1 - String.length ds) ++ ds else ds in
            let k := String.length ds in
            Normal (s ++ substring 0 (k - fn) ds ++ "." ++ substring (k - fn) fn ds)
    end.

End Number.

(* ================================================================= *)
(** ** Values: parsed JSON, [undefined], and the operations used on them *)

#[local] Set Warnings "-register-all".

(** What [response.json()] resolves to.  [JObj] lists the own properties
    of the parsed object, each key once. *)
Inductive JSON : Type :=
| JNull
| JBool (b : bool)
| JNum (x : Number.t)
| JStr (s : string)
| JArr (items : list JSON)
| JObj (fields : list (string * JSON)).

(** The value of an expression: [None] is [undefined]. *)
Definition value : Type := option JSON.
Definition undefined : value := None.

Fixpoint lookup (k : string) (fields : list (string * JSON)) : value :=
  match fields with
  | [] => undefined
  | (k', v) :: rest => if String.eqb k k' then Some v else lookup k rest
  end.

(** [v.k] for the property names this program reads ([status], [success],
    [error], [caption], [action], [predicted_action], [confidence],
    [all_predictions], [class], [probability]): none of them is defined on a
    built-in prototype, so only an object's own properties can answer. *)
Definition get (v : value) (k : string) : completion value :=
  match v with
  | None | Some JNull => Throw TypeError
  | Some (JObj fields) => Normal (lookup k fields)
  | Some _ => Normal undefined
  end.

(** ToBoolean. *)
Definition truthy (v : value) : bool :=
  match v with
  | None | Some JNull => false
  | Some (JBool b) => b
  | Some (JNum x) => negb (Number.is_zero_or_nan x)
  | Some (JStr s) => negb (String.eqb s "")
  | Some (JArr _) | Some (JObj _) => true
  end.

(** [a || b], for a [b] that is not [undefined] *)
Definition or_default (a : value) (b : JSON) : JSON :=
  match a with
  | Some v => if truthy a then v else b
  | None => b
  end.

(** [v === 'lit'] *)
Definition strict_eq_string (v : value) (lit : string) : bool :=
  match v with
  | Some (JStr s) => String.eqb s lit
  | _ => false
  end.

(** [v.toFixed(f)]: defined on numbers only; on [undefined] and [null] the
    property read throws, on any other value the call of [undefined] does. *)
Definition call_toFixed (v : value) (f : Z) : completion string :=
  match v with
  | Some (JNum x) => Number.toFixed x f
  | _ => Throw TypeError
  end.

(** [v.slice(0, n)]: arrays and strings have it. *)
Definition call_slice (v : value) (n : nat) : completion value :=
  match v with
  | Some (JArr items) => Normal (Some (JArr (firstn n items)))
  | Some (JStr s) => Normal (Some (JStr (substring 0 n s)))
  | _ => Throw TypeError
  end.

Fixpoint mapi_from {A} (i : nat) (f : JSON -> nat -> completion A) (l : list JSON)
  : completion (list A) :=
  match l with
  | [] => Normal []
  | x :: l' =>
      cbind (f x i) (fun y => cbind (mapi_from (S i) f l') (fun ys => Normal (y :: ys)))
  end.

(** [v.map((pred, index) => ...)]: arrays only. *)
Definition call_map {A} (v : value) (f : JSON -> nat -> completion A)
  : completion (list A) :=
  match v with
  | Some (JArr items) => mapi_from 0 f items
  | _ => Throw TypeError
  end.

(* ================================================================= *)
(** ** The browser around the component *)

Record File : Type := mkFile {
  file_name : string;
  file_type : string;
  file_bytes : list Byte.byte
}.

Record Blob : Type := mkBlob {
  blob_type : string;
  blob_bytes : list Byte.byte
}.

(** [new File([blob], name, { type })] *)
Definition new_File (blob : Blob) (name type : string) : File :=
  mkFile name type (blob_bytes blob).

(** [type.startsWith('image/')] *)
Definition startsWith (s pre : string) : bool := String.prefix pre s.

Record Request : Type := mkRequest {
  method : string;
  url : string;
  formData : list (string * File)   (* empty for a request without body *)
}.

(** A [Response]; [json] is what [response.json()] parses, [None] when the
    body is not JSON.  The status is carried to show that nothing reads it. *)
Record Response : Type := mkResponse {
  status : nat;
  json : option JSON
}.

(** How an awaited [fetch] settles. *)
Inductive Settled (A : Type) : Type :=
| Rejected                 (* network failure *)
| Resolved (a : A).
Arguments Rejected {A}.
Arguments Resolved {A} a.

Inductive Toast : Type :=
| toast_error (msg : string)
| toast_success (msg : string).

Inductive ConsoleEntry : Type :=
| console_log (msg : string)
| console_error (msg : string).

(** An object URL is the index of its file in the registry of
    [URL.createObjectURL]; the code never revokes one. *)
Definition ObjectURL : Type := nat.

Record World : Type := mkWorld {
  requests : list Request;        (* every network call issued, oldest first *)
  toasts : list Toast;
  console : list ConsoleEntry;
  objectURLs : list File;
  fileInput : option string       (* [fileInputRef.current]: the value of the
                                     mounted file input, [None] when the ref
                                     is null *)
}.

Definition resolveObjectURL (w : World) (u : ObjectURL) : option File :=
  nth_error (objectURLs w) u.

Definition empty_world (input : option string) : World :=
  mkWorld [] [] [] [] input.

(** React's commit of [ref={fileInputRef}] after a render: the ref points to
    the input while the input is rendered and is null otherwise; an input
    that has just been mounted has an empty value.  (What the browser writes
    into the value when the user picks a file is not tracked: the handlers
    only ever test the ref and empty the value.) *)
Definition commit_ref (rendered : bool) (w : World) : World :=
  mkWorld (requests w) (toasts w) (console w) (objectURLs w)
    (if rendered
     then Some (match fileInput w with
                | Some v => v
                | None => ""
                end)
     else None).

(* ================================================================= *)
(** ** Handlers as computations: state, exceptions, [try] / [catch] / [finally] *)

Section Computations.
Context {St : Type}.   (* the [useState] cells of one component *)

Definition Sys : Type := St * World.
Definition M (A : Type) : Type := Sys -> completion A * Sys.

Definition ret {A} (a : A) : M A := fun s => (Normal a, s).
Definition throw {A} (e : exn) : M A := fun s => (Throw e, s).
Definition bind {A B} (c : M A) (k : A -> M B) : M B :=
  fun s => match c s with
           | (Normal a, s') => k a s'
           | (Throw e, s') => (Throw e, s')
           end.
Definition lift {A} (c : completion A) : M A := fun s => (c, s).

(** [try { body } catch { handler }] *)
Definition try_catch {A} (body handler : M A) : M A :=
  fun s => match body s with
           | (Normal a, s') => (Normal a, s')
           | (Throw _, s') => handler s'
           end.

(** [try { body } finally { fin }] *)
Definition try_finally {A} (body : M A) (fin : M unit) : M A :=
  fun s => let (c, s') := body s in
           match fin s' with
           | (Normal _, s'') => (c, s'')
           | (Throw e, s'') => (Throw e, s'')
           end.

Definition read {A} (f : St -> A) : M A := fun s => (Normal (f (fst s)), s).
Definition set_state (f : St -> St) : M unit :=
  fun s => (Normal tt, (f (fst s), snd s)).
Definition on_world (f : World -> World) : M unit :=
  fun s => (Normal tt, (fst s, f (snd s))).

(** [await p] for a promise that settles as [r]. *)
Definition await {A} (r : Settled A) : M A :=
  match r with
  | Rejected => throw TypeError
  | Resolved a => ret a
  end.

(** [await response.json()] *)
Definition response_json (r : Response) : M JSON :=
  match json r with
  | Some data => ret data
  | None => throw SyntaxError
  end.

(** [fetch(url, { method, body })]: the call is issued; its outcome
    arrives later. *)
Definition fetch (req : Request) : M unit :=
  on_world (fun w => mkWorld (requests w ++ [req]) (toasts w) (console w)
                             (objectURLs w) (fileInput w)).

Definition toast (t : Toast) : M unit :=
  on_world (fun w => mkWorld (requests w) (toasts w ++ [t]) (console w)
                             (objectURLs w) (fileInput w)).

Definition log (c : ConsoleEntry) : M unit :=
  on_world (fun w => mkWorld (requests w) (toasts w) (console w ++ [c])
                             (objectURLs w) (fileInput w)).

(** [URL.createObjectURL(file)] *)
Definition createObjectURL (file : File) : M ObjectURL :=
  fun s => (Normal (List.length (objectURLs (snd s))),
            (fst s, mkWorld (requests (snd s)) (toasts (snd s)) (console (snd s))
                            (objectURLs (snd s) ++ [file]) (fileInput (snd s)))).

(** [if (fileInputRef.current) fileInputRef.current.value = ''] *)
Definition clear_fileInput : M unit :=
  on_world (fun w => mkWorld (requests w) (toasts w) (console w) (objectURLs w)
                             (match fileInput w with
                              | Some _ => Some ""
                              | None => None
                              end)).
End Computations.
Arguments Sys : clear implicits.
Arguments M : clear implicits.

Declare Scope comp_scope.
Delimit Scope comp_scope with comp.
Notation "x <- c ;; k" := (bind c (fun x => k))
  (at level 61, c at next level, right associativity) : comp_scope.
Notation "c ;; k" := (bind c (fun _ => k))
  (at level 61, right associativity) : comp_scope.

(** Where a computation leaves the system, and how it completes. *)
Definition exec {St A} (c : M St A) (s : Sys St) : Sys St := snd (c s).
Definition outcome {St A} (c : M St A) (s : Sys St) : completion A := fst (c s).

(* ================================================================= *)
(** ** What the result renderer produces *)

Notation "'let*' x ':=' c 'in' k" := (cbind c (fun x => k))
  (at level 10, x name, c at level 100, k at level 200).

(** One row of the ranked list. *)
Record PredictionRow : Type := mkRow {
  row_rank : nat;          (* [index + 1] *)
  row_class : value;       (* [pred.class] *)
  row_value : string;      (* [pred.probability.toFixed(..)] followed by [%] *)
  row_width : value        (* [pred.probability], the bar's width in percent *)
}.

Record ActionCard : Type := mkActionCard {
  action_name : value;
  action_confidence : string;   (* the text of the confidence span *)
  top_predictions : list PredictionRow
}.

(** [v && <card/>]: the card when [v] is truthy, else [v] itself. *)
Inductive slot (A : Type) : Type :=
| Shown (a : A)
| Blank (v : value).
Arguments Shown {A} a.
Arguments Blank {A} v.

Record ResultsView : Type := mkResultsView {
  caption_slot : slot value;      (* the caption text, [results.caption] *)
  action_slot : slot ActionCard
}.

(** What React accepts between braces when it commits an element: text for
    strings and numbers, nothing for booleans, [null] and [undefined], the
    items of an array one by one; a plain object is refused with the error
    "Objects are not valid as a React child". *)
Fixpoint valid_child_json (v : JSON) : bool :=
  match v with
  | JObj _ => false
  | JArr items => forallb valid_child_json items
  | _ => true
  end.

Definition valid_child (v : value) : bool :=
  match v with
  | None => true
  | Some j => valid_child_json j
  end.

Definition valid_slot {A} (ok : A -> bool) (s : slot A) : bool :=
  match s with
  | Shown a => ok a
  | Blank v => valid_child v
  end.

(** The braces of the action card: the action name and each [pred.class]
    (ranks and [toFixed] texts are numbers and strings). *)
Definition valid_card (card : ActionCard) : bool :=
  valid_child (action_name card)
  && forallb (fun row => valid_child (row_class row)) (top_predictions card).

Definition valid_view (view : ResultsView) : bool :=
  valid_slot valid_child (caption_slot view)
  && valid_slot valid_card (action_slot view).

(** A render as the user gets it: the component function returns its
    elements (or throws), then React commits them and refuses a bad child. *)
Definition committed {A} (ok : A -> bool) (rendered : completion A) : completion A :=
  let* elements := rendered in
  if ok elements then Normal elements else Throw Error.

(** [results.action ? results.action.k : results.k] *)
Definition facet (results : JSON) (k : string) : completion value :=
  let* action := get (Some results) "action" in
  if truthy action then get action k else get (Some results) k.

(* ================================================================= *)
(** ** The styled screen: [frontend/src/pages/Index.tsx] *)

Module Index.

Definition API_BASE_URL : string :=
  "https://ahsanaftab-action-recognition-and-captioning.hf.space".

(** The [useState] cells; [JNull] is [null] in the two cells that hold
    response data. *)
Record State : Type := mkState {
  selectedFile : option File;
  previewUrl : option ObjectURL;
  isLoading : bool;
  error : JSON;
  results : JSON;
  apiHealth : bool;
  isDragging : bool
}.

Definition initial : State :=
  mkState None None false JNull JNull false false.

Definition setSelectedFile (v : option File) : M State unit :=
  set_state (fun s => mkState v (previewUrl s) (isLoading s) (error s)
                              (results s) (apiHealth s) (isDragging s)).
Definition setPreviewUrl (v : option ObjectURL) : M State unit :=
  set_state (fun s => mkState (selectedFile s) v (isLoading s) (error s)
                              (results s) (apiHealth s) (isDragging s)).
Definition setIsLoading (v : bool) : M State unit :=
  set_state (fun s => mkState (selectedFile s) (previewUrl s) v (error s)
                              (results s) (apiHealth s) (isDragging s)).
Definition setError (v : JSON) : M State unit :=
  set_state (fun s => mkState (selectedFile s) (previewUrl s) (isLoading s) v
                              (results s) (apiHealth s) (isDragging s)).
Definition setResults (v : JSON) : M State unit :=
  set_state (fun s => mkState (selectedFile s) (previewUrl s) (isLoading s)
                              (error s) v (apiHealth s) (isDragging s)).
Definition setApiHealth (v : bool) : M State unit :=
  set_state (fun s => mkState (selectedFile s) (previewUrl s) (isLoading s)
                              (error s) (results s) v (isDragging s)).
Definition setIsDragging (v : bool) : M State unit :=
  set_state (fun s => mkState (selectedFile s) (previewUrl s) (isLoading s)
                              (error s) (results s) (apiHealth s) v).

Local Open Scope comp_scope.

(** *** Health probe (lines 20-33) *)

Definition checkHealth : M State unit :=
  fetch (mkRequest "GET" (API_BASE_URL ++ "/health") []).

Definition checkHealth_resume (r : Settled Response) : M State unit :=
  try_catch
    (response <- await r ;;
     data <- response_json response ;;
     status <- lift (get (Some data) "status") ;;
     if strict_eq_string status "healthy" then setApiHealth true else ret tt)
    (setApiHealth false).

(** *** File acquisition (lines 35-82) *)

Definition processFile (file : File) : M State unit :=
  setSelectedFile (Some file) ;;
  setError JNull ;;
  setResults JNull ;;
  objectUrl <- createObjectURL file ;;
  setPreviewUrl (Some objectUrl).

Definition handleImageSelect (files : list File) : M State unit :=
  match hd_error files with
  | None => ret tt
  | Some file =>
      if negb (startsWith (file_type file) "image/") then
        setError (JStr "Please select a valid image file") ;;
        toast (toast_error "Invalid file type")
      else processFile file
  end.

(** [e.preventDefault()] touches the event only. *)
Definition handleDrop (files : list File) : M State unit :=
  setIsDragging false ;;
  match hd_error files with
  | Some file =>
      if startsWith (file_type file) "image/" then processFile file
      else toast (toast_error "Please drop a valid image file")
  | None => toast (toast_error "Please drop a valid image file")
  end.

Definition sampleImageUrl : string :=
  "https://images.unsplash.com/photo-1551963831-b3b1ca40c98e?w=400".

Definition loadSampleImage : M State unit :=
  setIsLoading true ;;
  fetch (mkRequest "GET" sampleImageUrl []).

(** [r]: how [fetch] followed by [response.blob()] settles. *)
Definition loadSampleImage_resume (r : Settled Blob) : M State unit :=
  try_finally
    (try_catch
       (blob <- await r ;;
        let file := new_File blob "sample.jpg" "image/jpeg" in
        processFile file)
       (setError (JStr "Failed to load sample image") ;;
        toast (toast_error "Failed to load sample")))
    (setIsLoading false).

(** *** Analysis dispatch (lines 84-123) *)

Inductive Mode : Type := caption | action | combined.

Definition endpoint_of (mode : Mode) : string :=
  match mode with
  | caption => "/api/caption"
  | action => "/api/action"
  | combined => "/api/combined"
  end.

(** Up to the first [await]; [true] when a request is now in flight.
    [selectedFile] is the cell as the handler's closure sees it. *)
Definition analyzeImage (mode : Mode) : M State bool :=
  file <- read selectedFile ;;
  match file with
  | None =>
      setError (JStr "Please select an image first") ;;
      ret false
  | Some selected =>
      setIsLoading true ;;
      setError JNull ;;
      let formData := [("image", selected)] in
      let endpoint := endpoint_of mode in
      fetch (mkRequest "POST" (API_BASE_URL ++ endpoint) formData) ;;
      ret true
  end.

(** From the settled [fetch] on: the body of the [try], its [catch] and
    its [finally]. *)
Definition analyzeImage_resume (r : Settled Response) : M State unit :=
  try_finally
    (try_catch
       (response <- await r ;;
        data <- response_json response ;;
        success <- lift (get (Some data) "success") ;;
        if truthy success then
          setResults data ;;
          toast (toast_success "Analysis complete!")
        else
          err <- lift (get (Some data) "error") ;;
          setError (or_default err (JStr "Analysis failed")) ;;
          toast (toast_error "Analysis failed"))
       (setError (JStr "Failed to analyze image") ;;
        toast (toast_error "Connection error")))
    (setIsLoading false).

(** One whole attempt: the click, then the response. *)
Definition analyzeImage_run (mode : Mode) (r : Settled Response) : M State unit :=
  pending <- analyzeImage mode ;;
  if pending then analyzeImage_resume r else ret tt.

(** *** Reset and dismissal (lines 125-131, 315) *)

Definition resetAnalysis : M State unit :=
  setSelectedFile None ;;
  setPreviewUrl None ;;
  setResults JNull ;;
  setError JNull ;;
  clear_fileInput.

Definition dismiss : M State unit := setError JNull.

(** *** The right-hand panel (lines 284-410) *)

(** What the component function evaluates to, or the exception it throws
    while reading the result.  The children in braces are kept as values;
    [commit_right] below adds React's check of them. *)

Definition render_prediction (pred : JSON) (index : nat) : completion PredictionRow :=
  let* class := get (Some pred) "class" in
  let* probability := get (Some pred) "probability" in
  let* shown := call_toFixed probability 1 in
  Normal (mkRow (index + 1) class (shown ++ "%") probability).

Definition render_action (results : JSON) : completion ActionCard :=
  let* name := facet results "predicted_action" in
  let* confidence := facet results "confidence" in
  let* shown := call_toFixed confidence 1 in
  let* all_predictions := facet results "all_predictions" in
  let* top := call_slice all_predictions 5 in
  let* rows := call_map top render_prediction in
  Normal (mkActionCard name (shown ++ "% confidence") rows).

Definition render_results (results : JSON) : completion ResultsView :=
  let* caption := get (Some results) "caption" in
  let* act := get (Some results) "action" in
  let* shown := if truthy act then Normal act
                else get (Some results) "predicted_action" in
  let* card := if truthy shown
               then let* c := render_action results in Normal (Shown c)
               else Normal (Blank shown) in
  Normal (mkResultsView (if truthy caption then Shown caption else Blank caption)
                        card).

Inductive RightPanel : Type :=
| EmptyPanel
| ErrorPanel (message : JSON)
| ResultsPanel (view : ResultsView).

Definition render_right (s : State) : completion RightPanel :=
  if negb (truthy (Some (results s))) && negb (truthy (Some (error s)))
  then Normal EmptyPanel
  else if truthy (Some (error s)) then Normal (ErrorPanel (error s))
  else let* view := render_results (results s) in Normal (ResultsPanel view).

(** *** The component as a reactive system *)

Inductive event : Type :=
| InputChange (files : list File)
| DragOver
| DragLeave
| Drop (files : list File)
| ClickSample
| SampleSettled (r : Settled Blob)
| ClickAnalyze (mode : Mode)
| AnalyzeSettled (r : Settled Response)
| ClickReset
| ClickDismiss
| HealthSettled (r : Settled Response).

Definition handle (ev : event) : M State unit :=
  match ev with
  | InputChange files => handleImageSelect files
  | DragOver => setIsDragging true
  | DragLeave => setIsDragging false
  | Drop files => handleDrop files
  | ClickSample => loadSampleImage
  | SampleSettled r => loadSampleImage_resume r
  | ClickAnalyze mode => _ <- analyzeImage mode ;; ret tt
  | AnalyzeSettled r => analyzeImage_resume r
  | ClickReset => resetAnalysis
  | ClickDismiss => dismiss
  | HealthSettled r => checkHealth_resume r
  end.

(** The file input sits in the upload view, which line 165 renders when
    there is no preview. *)
Definition input_rendered (s : State) : bool :=
  match previewUrl s with
  | None => true
  | Some _ => false
  end.

(** The render that follows a handler, as far as the ref goes (for the
    styled screen: once the panel animation has settled). *)
Definition commit (s : Sys State) : Sys State :=
  (fst s, commit_ref (input_rendered (fst s)) (snd s)).

(** Mounting: the cells take their initial values and the effect with the
    empty dependency list runs, once. *)
Definition mount (w : World) : Sys State := commit (exec checkHealth (initial, w)).

Fixpoint run (evs : list event) (s : Sys State) : Sys State :=
  match evs with
  | [] => s
  | ev :: rest => run rest (commit (exec (handle ev) s))
  end.

(** The right-hand panel as the user gets it: the error message, the
    caption, the action name and the class labels are children in braces. *)
Definition valid_panel (panel : RightPanel) : bool :=
  match panel with
  | EmptyPanel => true
  | ErrorPanel message => valid_child (Some message)
  | ResultsPanel view => valid_view view
  end.

Definition commit_right (s : State) : completion RightPanel :=
  committed valid_panel (render_right s).

(** *** The left-hand panel and what the user can trigger (lines 163-281) *)

(** The upload view carries the drop zone, the file input and the sample
    button; the preview view carries the image, the three analysis buttons
    and the reset button, which is never disabled. *)
Inductive LeftPanel : Type :=
| UploadPanel (highlighted : bool) (sample_disabled : bool)
| PreviewPanel (src : ObjectURL) (overlay : bool) (analyze_disabled : bool).

Definition render_left (s : State) : LeftPanel :=
  match previewUrl s with
  | None => UploadPanel (isDragging s) (isLoading s)
  | Some src => PreviewPanel src (isLoading s) (isLoading s)
  end.

(** The header badge (lines 148-155). *)
Definition render_badge (s : State) : string :=
  if apiHealth s then "Connected" else "Offline".

(** The control behind a user event is on screen in the render of the
    current state and not disabled; a settling promise needs no control.
    This is the settled screen.  While [<AnimatePresence mode="wait">] (lines
    164, 285) animates a panel out, that panel stays clickable with the props
    and closures of an earlier render: a click on an exiting panel is not an
    event of [step]. *)
Definition enabled (s : State) (ev : event) : bool :=
  match ev with
  | InputChange _ | DragOver | DragLeave | Drop _ =>
      match render_left s with
      | UploadPanel _ _ => true
      | PreviewPanel _ _ _ => false
      end
  | ClickSample =>
      match render_left s with
      | UploadPanel _ disabled => negb disabled
      | PreviewPanel _ _ _ => false
      end
  | ClickAnalyze _ =>
      match render_left s with
      | PreviewPanel _ _ disabled => negb disabled
      | UploadPanel _ _ => false
      end
  | ClickReset =>
      match render_left s with
      | PreviewPanel _ _ _ => true
      | UploadPanel _ _ => false
      end
  | ClickDismiss =>
      match render_right s with
      | Normal (ErrorPanel _) => true
      | _ => false
      end
  | SampleSettled _ | AnalyzeSettled _ | HealthSettled _ => true
  end.

(** The screen together with the user-triggered requests still in flight. *)
Record Session : Type := mkSession {
  screen : Sys State;
  analyses : nat;     (* analysis requests issued and not yet settled *)
  samples : nat       (* sample downloads issued and not yet settled *)
}.

(** One event of a session on the settled screen: [None] when it cannot
    happen (its control is missing from the current render or disabled, or
    nothing of its kind is in flight). *)
Definition step (ev : event) (session : Session) : option Session :=
  let s := screen session in
  if negb (enabled (fst s) ev) then None
  else
    match ev with
    | ClickAnalyze mode =>
        let issued := match outcome (analyzeImage mode) s with
                      | Normal true => 1%nat
                      | _ => 0%nat
                      end in
        Some (mkSession (commit (exec (handle ev) s)) (analyses session + issued)
                        (samples session))
    | AnalyzeSettled _ =>
        match analyses session with
        | O => None
        | S n => Some (mkSession (commit (exec (handle ev) s)) n (samples session))
        end
    | ClickSample =>
        Some (mkSession (commit (exec (handle ev) s)) (analyses session)
                        (S (samples session)))
    | SampleSettled _ =>
        match samples session with
        | O => None
        | S n => Some (mkSession (commit (exec (handle ev) s)) (analyses session) n)
        end
    | _ => Some (mkSession (commit (exec (handle ev) s)) (analyses session)
                       (samples session))
    end.

Fixpoint steps (evs : list event) (session : Session) : option Session :=
  match evs with
  | [] => Some session
  | ev :: rest =>
      match step ev session with
      | Some session' => steps rest session'
      | None => None
      end
  end.

Definition session_at_mount (w : World) : Session := mkSession (mount w) 0 0.

End Index.

(* ================================================================= *)
(** ** The plain screen (no toasts, no drag-and-drop) *)

Module App.

Definition API_BASE_URL : string := "http://localhost:5000".

Record State : Type := mkState {
  selectedFile : option File;
  previewUrl : option ObjectURL;
  isLoading : bool;
  error : JSON;
  results : JSON;
  apiHealth : bool
}.

Definition initial : State := mkState None None false JNull JNull false.

Definition setSelectedFile (v : option File) : M State unit :=
  set_state (fun s => mkState v (previewUrl s) (isLoading s) (error s)
                              (results s) (apiHealth s)).
Definition setPreviewUrl (v : option ObjectURL) : M State unit :=
  set_state (fun s => mkState (selectedFile s) v (isLoading s) (error s)
                              (results s) (apiHealth s)).
Definition setIsLoading (v : bool) : M State unit :=
  set_state (fun s => mkState (selectedFile s) (previewUrl s) v (error s)
                              (results s) (apiHealth s)).
Definition setError (v : JSON) : M State unit :=
  set_state (fun s => mkState (selectedFile s) (previewUrl s) (isLoading s) v
                              (results s) (apiHealth s)).
Definition setResults (v : JSON) : M State unit :=
  set_state (fun s => mkState (selectedFile s) (previewUrl s) (isLoading s)
                              (error s) v (apiHealth s)).
Definition setApiHealth (v : bool) : M State unit :=
  set_state (fun s => mkState (selectedFile s) (previewUrl s) (isLoading s)
                              (error s) (results s) v).

Local Open Scope comp_scope.

(** *** Health probe (lines 21-36) *)

Definition checkHealth : M State unit :=
  fetch (mkRequest "GET" (API_BASE_URL ++ "/health") []).

Definition checkHealth_resume (r : Settled Response) : M State unit :=
  try_catch
    (response <- await r ;;
     data <- response_json response ;;
     status <- lift (get (Some data) "status") ;;
     if strict_eq_string status "healthy" then
       log (console_log "✓ API is running") ;;
       setApiHealth true
     else ret tt)
    (log (console_error "⚠️ API not responding") ;;
     setApiHealth false).

(** *** File acquisition (lines 40-75) *)

Definition processFile (file : File) : M State unit :=
  setSelectedFile (Some file) ;;
  setError JNull ;;
  setResults JNull ;;
  objectUrl <- createObjectURL file ;;
  setPreviewUrl (Some objectUrl).

Definition handleImageSelect (files : list File) : M State unit :=
  match hd_error files with
  | None => ret tt
  | Some file =>
      if negb (startsWith (file_type file) "image/") then
        setError (JStr "Please select a valid image file")
      else processFile file
  end.

Definition sampleImageUrl : string :=
  "https://images.unsplash.com/photo-1551963831-b3b1ca40c98e?w=400".

Definition loadSampleImage : M State unit :=
  setIsLoading true ;;
  fetch (mkRequest "GET" sampleImageUrl []).

Definition loadSampleImage_resume (r : Settled Blob) : M State unit :=
  try_finally
    (try_catch
       (blob <- await r ;;
        let file := new_File blob "sample.jpg" "image/jpeg" in
        processFile file)
       (setError (JStr "Failed to load sample image")))
    (setIsLoading false).

(** *** Analysis dispatch (lines 77-114) *)

(** The [switch]; [None] is its [default: return]. *)
Definition endpoint_of (mode : string) : option string :=
  if String.eqb mode "caption" then Some "/api/caption"
  else if String.eqb mode "action" then Some "/api/action"
  else if String.eqb mode "combined" then Some "/api/combined"
  else None.

Definition analyzeImage (mode : string) : M State bool :=
  file <- read selectedFile ;;
  match file with
  | None =>
      setError (JStr "Please select an image first") ;;
      ret false
  | Some selected =>
      setIsLoading true ;;
      setError JNull ;;
      let formData := [("image", selected)] in
      match endpoint_of mode with
      | Some endpoint =>
          fetch (mkRequest "POST" (API_BASE_URL ++ endpoint) formData) ;;
          ret true
      | None => ret false
      end
  end.

Definition analyzeImage_resume (r : Settled Response) : M State unit :=
  try_finally
    (try_catch
       (response <- await r ;;
        data <- response_json response ;;
        success <- lift (get (Some data) "success") ;;
        if truthy success then setResults data
        else
          err <- lift (get (Some data) "error") ;;
          setError (or_default err (JStr "Analysis failed")))
       (setError (JStr "Failed to analyze image. Ensure Flask server is running.")))
    (setIsLoading false).

Definition analyzeImage_run (mode : string) (r : Settled Response) : M State unit :=
  pending <- analyzeImage mode ;;
  if pending then analyzeImage_resume r else ret tt.

(** *** Reset and dismissal (lines 116-123, 294) *)

Definition resetAnalysis : M State unit :=
  setSelectedFile None ;;
  setPreviewUrl None ;;
  setResults JNull ;;
  setError JNull ;;
  clear_fileInput.

Definition dismiss : M State unit := setError JNull.

(** *** Results and error sections (lines 219-299) *)

(** What the component function evaluates to, or the exception it throws
    while reading the result.  The children in braces are kept as values;
    [commit_sections] below adds React's check of them. *)

Definition render_prediction (pred : JSON) (index : nat) : completion PredictionRow :=
  let* class := get (Some pred) "class" in
  let* probability := get (Some pred) "probability" in
  let* shown := call_toFixed probability 2 in
  Normal (mkRow (index + 1) class (shown ++ "%") probability).

Definition render_action (results : JSON) : completion ActionCard :=
  let* name := facet results "predicted_action" in
  let* confidence := facet results "confidence" in
  let* shown := call_toFixed confidence 2 in
  let* all_predictions := facet results "all_predictions" in
  let* rows := call_map all_predictions render_prediction in
  Normal (mkActionCard name (shown ++ "% confidence") rows).

Definition render_results (results : JSON) : completion ResultsView :=
  let* caption := get (Some results) "caption" in
  let* act := get (Some results) "action" in
  let* shown := if truthy act then Normal act
                else get (Some results) "predicted_action" in
  let* card := if truthy shown
               then let* c := render_action results in Normal (Shown c)
               else Normal (Blank shown) in
  Normal (mkResultsView (if truthy caption then Shown caption else Blank caption)
                        card).

Record Sections : Type := mkSections {
  results_section : slot ResultsView;   (* [results && !isLoading && ...] *)
  error_section : slot JSON             (* [error && ...] *)
}.

Definition render_sections (s : State) : completion Sections :=
  let* res := if truthy (Some (results s)) then
                if negb (isLoading s)
                then let* view := render_results (results s) in Normal (Shown view)
                else Normal (Blank (Some (JBool false)))
              else Normal (Blank (Some (results s))) in
  Normal (mkSections res (if truthy (Some (error s)) then Shown (error s)
                          else Blank (Some (error s)))).

(** *** The component as a reactive system *)

Inductive event : Type :=
| InputChange (files : list File)
| ClickSample
| SampleSettled (r : Settled Blob)
| ClickAnalyze (mode : string)
| AnalyzeSettled (r : Settled Response)
| ClickReset
| ClickDismiss
| HealthSettled (r : Settled Response).

Definition handle (ev : event) : M State unit :=
  match ev with
  | InputChange files => handleImageSelect files
  | ClickSample => loadSampleImage
  | SampleSettled r => loadSampleImage_resume r
  | ClickAnalyze mode => _ <- analyzeImage mode ;; ret tt
  | AnalyzeSettled r => analyzeImage_resume r
  | ClickReset => resetAnalysis
  | ClickDismiss => dismiss
  | HealthSettled r => checkHealth_resume r
  end.

(** The file input sits in the upload section, rendered when there is no
    preview (lines 144-173). *)
Definition input_rendered (s : State) : bool :=
  match previewUrl s with
  | None => true
  | Some _ => false
  end.

(** The render that follows a handler, as far as the ref goes. *)
Definition commit (s : Sys State) : Sys State :=
  (fst s, commit_ref (input_rendered (fst s)) (snd s)).

Definition mount (w : World) : Sys State := commit (exec checkHealth (initial, w)).

Fixpoint run (evs : list event) (s : Sys State) : Sys State :=
  match evs with
  | [] => s
  | ev :: rest => run rest (commit (exec (handle ev) s))
  end.

(** The sections as the user gets them. *)
Definition valid_sections (sections : Sections) : bool :=
  valid_slot valid_view (results_section sections)
  && valid_slot (fun message => valid_child (Some message)) (error_section sections).

Definition commit_sections (s : State) : completion Sections :=
  committed valid_sections (render_sections s).

(** The reset button sits in the results section (lines 220, 280). *)
Definition reset_rendered (s : State) : bool :=
  truthy (Some (results s)) && negb (isLoading s).

End App.

(* ================================================================= *)
(** ** Vocabulary of the properties *)

(** [data.k] as a total function, for a [data] that is not [null]. *)
Definition prop (data : JSON) (k : string) : value :=
  match data with
  | JObj fields => lookup k fields
  | _ => undefined
  end.

(** What "adopting [file]" means: it is the selected file, error and
    result are cleared, and the preview handle is a new object URL that
    resolves to the file. *)
Definition adopted_Index (file : File) (before after : Sys Index.State) : Prop :=
  Index.selectedFile (fst after) = Some file /\
  Index.error (fst after) = JNull /\
  Index.results (fst after) = JNull /\
  exists u, Index.previewUrl (fst after) = Some u /\
            resolveObjectURL (snd after) u = Some file /\
            resolveObjectURL (snd before) u = None.

Definition adopted_App (file : File) (before after : Sys App.State) : Prop :=
  App.selectedFile (fst after) = Some file /\
  App.error (fst after) = JNull /\
  App.results (fst after) = JNull /\
  exists u, App.previewUrl (fst after) = Some u /\
            resolveObjectURL (snd after) u = Some file /\
            resolveObjectURL (snd before) u = None.

(** The error message in the spec's words: the body's [error] field, or
    the generic fallback when that field is absent. *)
Definition spec_error_shown (data : JSON) : JSON :=
  match prop data "error" with
  | Some message => message
  | None => JStr "Analysis failed"
  end.

(** The attempts that end in the [catch] block: [fetch] rejected, a body
    that is not JSON, and the JSON body [null] (reading [success] off it
    throws). *)
Definition caught (r : Settled Response) : bool :=
  match r with
  | Rejected => true
  | Resolved response =>
      match json response with
      | None | Some JNull => true
      | Some _ => false
      end
  end.

(** An attempt succeeds when the body parses and its [success] is truthy. *)
Definition succeeded (r : Settled Response) : bool :=
  match r with
  | Rejected => false
  | Resolved response =>
      match json response with
      | None => false
      | Some data => truthy (prop data "success")
      end
  end.

(** The Number that the literal [87.345] denotes. *)
Definition confidence_87_345 : Number.t := Number.of_decimal false 87345 (-3).

(** A combined response with [action.confidence = 87.345]. *)
Definition running_87_345 : JSON :=
  JObj [("success", JBool true);
        ("caption", JStr "a man running on a track");
        ("action", JObj [("predicted_action", JStr "running");
                         ("confidence", JNum confidence_87_345);
                         ("all_predictions", JArr [])])].

(** A prediction the renderers can show: an object (or any non-null value)
    whose [probability] is a number. *)
Definition well_formed_prediction (pred : JSON) : Prop :=
  exists x, get (Some pred) "probability" = Normal (Some (JNum x)).

(** The row shows this prediction: its label and its bar. *)
Definition row_shows (pred : JSON) (row : PredictionRow) : Prop :=
  row_class row = prop pred "class" /\ row_width row = prop pred "probability".

(** The action card is rendered: [results.action || results.predicted_action]. *)
Definition action_shown (results : JSON) : bool :=
  truthy (prop results "action") || truthy (prop results "predicted_action").

(** The probe's verdict: the response parses as JSON whose [status] is the
    string [healthy]. *)
Definition healthy (r : Settled Response) : bool :=
  match r with
  | Rejected => false
  | Resolved response =>
      match json response with
      | None => false
      | Some data => strict_eq_string (prop data "status") "healthy"
      end
  end.

(** How many of the calls in a network log went to [{base}/health]. *)
Definition health_probes (base : string) (log : list Request) : nat :=
  List.length (filter (fun req => String.eqb (url req) (base ++ "/health")) log).

Definition Index_other (ev : Index.event) : bool :=
  match ev with
  | Index.HealthSettled _ => false
  | _ => true
  end.

Definition App_other (ev : App.event) : bool :=
  match ev with
  | App.HealthSettled _ => false
  | _ => true
  end.

(** A computation keeps an observation [f] of the system unchanged,
    however it completes. *)
Definition keeps {St A X} (f : Sys St -> X) (c : M St A) : Prop :=
  forall s, f (snd (c s)) = f s.

(** A computation maintains an invariant [I] of the system, however it
    completes. *)
Definition maintains {St A} (I : Sys St -> Prop) (c : M St A) : Prop :=
  forall s, I s -> I (snd (c s)).

(** The selected file and the preview handle go together: both absent, or
    the handle resolves to the selected file. *)
Definition preview_matches_file (file : option File) (preview : option ObjectURL)
  (w : World) : Prop :=
  match file, preview with
  | None, None => True
  | Some f, Some u => resolveObjectURL w u = Some f
  | _, _ => False
  end.

(** A cell that holds response data is [null] or truthy. *)
Definition null_or_truthy (v : JSON) : Prop := v = JNull \/ truthy (Some v) = true.

(** A stored analysis result is a body that reported success. *)
Definition null_or_success (v : JSON) : Prop :=
  v = JNull \/ truthy (prop v "success") = true.

(** The events by which the user asks for a network call. *)
Definition Index_dispatches (ev : Index.event) : bool :=
  match ev with
  | Index.ClickSample | Index.ClickAnalyze _ => true
  | _ => false
  end.

Definition App_dispatches (ev : App.event) : bool :=
  match ev with
  | App.ClickSample | App.ClickAnalyze _ => true
  | _ => false
  end.

(** The message a failed attempt puts in the error cell of the styled and
    of the plain screen. *)
Definition failure_message (connection : string) (r : Settled Response) : JSON :=
  match r with
  | Rejected => JStr connection
  | Resolved response =>
      match json response with
      | None | Some JNull => JStr connection
      | Some data => or_default (prop data "error") (JStr "Analysis failed")
      end
  end.

(** The mode literal the plain screen passes for a mode of the styled one. *)
Definition mode_name (mode : Index.Mode) : string :=
  match mode with
  | Index.caption => "caption"
  | Index.action => "action"
  | Index.combined => "combined"
  end.

(** The same user action on the plain screen.  Dragging has no counterpart
    there (it only moves the highlight); neither has a drop. *)
Definition plain_events (ev : Index.event) : list App.event :=
  match ev with
  | Index.InputChange files => [App.InputChange files]
  | Index.DragOver | Index.DragLeave | Index.Drop _ => []
  | Index.ClickSample => [App.ClickSample]
  | Index.SampleSettled r => [App.SampleSettled r]
  | Index.ClickAnalyze mode => [App.ClickAnalyze (mode_name mode)]
  | Index.AnalyzeSettled r => [App.AnalyzeSettled r]
  | Index.ClickReset => [App.ClickReset]
  | Index.ClickDismiss => [App.ClickDismiss]
  | Index.HealthSettled r => [App.HealthSettled r]
  end.

Definition no_drop (ev : Index.event) : bool :=
  match ev with
  | Index.Drop _ => false
  | _ => true
  end.

(** The ref follows the input element: it is null exactly when the input
    is not rendered. *)
Definition ref_follows_input (rendered : bool) (w : World) : Prop :=
  fileInput w = None <-> rendered = false.

(** The same call issued by the two screens: same method, same form data,
    and the same address -- literally, or the same path under each screen's
    own base address. *)
Definition same_call (styled plain : Request) : Prop :=
  method styled = method plain /\
  formData styled = formData plain /\
  (url styled = url plain \/
   exists path, url styled = Index.API_BASE_URL ++ path /\
                url plain = App.API_BASE_URL ++ path).

(** The two screens are in the same situation: every shared cell agrees,
    the browser holds the same object URLs and the same file input behind
    the ref (which follows the input), the same calls were issued in the same
    order, and the error cells agree up to the wording of the connection
    error. *)
Definition same_screen (i : Sys Index.State) (a : Sys App.State) : Prop :=
  Index.selectedFile (fst i) = App.selectedFile (fst a) /\
  Index.previewUrl (fst i) = App.previewUrl (fst a) /\
  Index.isLoading (fst i) = App.isLoading (fst a) /\
  Index.results (fst i) = App.results (fst a) /\
  Index.apiHealth (fst i) = App.apiHealth (fst a) /\
  objectURLs (snd i) = objectURLs (snd a) /\
  fileInput (snd i) = fileInput (snd a) /\
  ref_follows_input (Index.input_rendered (fst i)) (snd i) /\
  Forall2 same_call (requests (snd i)) (requests (snd a)) /\
  (Index.error (fst i) = App.error (fst a) \/
   (Index.error (fst i) = JStr "Failed to analyze image" /\
    App.error (fst a) = JStr "Failed to analyze image. Ensure Flask server is running.")).

(* ================================================================= *)
(** ** Properties *)

Lemma get_prop (data : JSON) (k : string) :
  data <> JNull -> get (Some data) k = Normal (prop data k).
Proof. destruct data; intros H; try reflexivity. now elim H. Qed.

(** *** Reset *)

(** C5, as the spec words it, fails: a reset does not put every cell back
    to its initial value.  After a healthy probe the connectivity flag stays
    on, and a reset while an analysis is pending leaves the loading flag on. *)
Lemma C5_reset_keeps_flags_counterexample :
  let img := mkFile "cat.png" "image/png" [] in
  let healthy := Resolved (mkResponse 200 (Some (JObj [("status", JStr "healthy")]))) in
  let ok := Resolved (mkResponse 200 (Some (JObj [("success", JBool true);
                                                  ("caption", JStr "a cat")]))) in
  let i := Index.run [Index.HealthSettled healthy; Index.InputChange [img];
                      Index.ClickAnalyze Index.caption; Index.ClickReset]
             (Index.mount (empty_world None)) in
  let a := App.run [App.HealthSettled healthy; App.InputChange [img];
                    App.ClickAnalyze "caption"; App.AnalyzeSettled ok; App.ClickReset]
             (App.mount (empty_world None)) in
  fst i = Index.mkState None None true JNull JNull true false /\
  fst i <> Index.initial /\
  fst a = App.mkState None None false JNull JNull true /\
  fst a <> App.initial.
Proof. repeat split; discriminate. Qed.

(** C5, amended. From every state, [resetAnalysis] leaves no selected file,
    no preview handle, no analysis result and no error; the loading flag,
    the connectivity flag and the drag highlight keep the values they had,
    and no network call is issued.  The handler empties the value of the
    file input only when the ref is attached at that moment, and leaves a
    null ref null.  Where the styled screen renders the reset button (the
    preview panel) the input is not rendered, so the ref is null and that
    line does nothing.  Either way the input that is on screen once the
    reset has been rendered has an empty value. *)
Theorem C5_reset_returns_to_no_file_state :
  forall (si : Index.State) (sa : App.State) (w : World),
    let i' := exec Index.resetAnalysis (si, w) in
    let a' := exec App.resetAnalysis (sa, w) in
    (Index.selectedFile (fst i') = None /\ Index.previewUrl (fst i') = None /\
     Index.results (fst i') = JNull /\ Index.error (fst i') = JNull /\
     fst i' = Index.mkState None None (Index.isLoading si) JNull JNull
                (Index.apiHealth si) (Index.isDragging si)) /\
    (App.selectedFile (fst a') = None /\ App.previewUrl (fst a') = None /\
     App.results (fst a') = JNull /\ App.error (fst a') = JNull /\
     fst a' = App.mkState None None (App.isLoading sa) JNull JNull (App.apiHealth sa)) /\
    fileInput (snd i') = option_map (fun _ => "") (fileInput w) /\
    fileInput (snd a') = option_map (fun _ => "") (fileInput w) /\
    requests (snd i') = requests w /\ requests (snd a') = requests w /\
    outcome Index.resetAnalysis (si, w) = Normal tt /\
    outcome App.resetAnalysis (sa, w) = Normal tt /\
    fileInput (snd (Index.commit i')) = Some "" /\
    fileInput (snd (App.commit a')) = Some "" /\
    (Index.enabled si Index.ClickReset = true ->
     ref_follows_input (Index.input_rendered si) w ->
     Index.input_rendered si = false /\
     fileInput w = None /\ fileInput (snd i') = None).
Proof.
  intros si sa w; cbn.
  repeat match goal with |- _ /\ _ => split end;
    try (destruct (fileInput w); reflexivity).
  unfold Index.enabled, Index.render_left, Index.input_rendered, ref_follows_input.
  destruct (Index.previewUrl si); [|discriminate].
  intros _ [_ H]. rewrite (H eq_refl). repeat split.
Qed.

Lemma C5_reset_returns_to_no_file_state_witness :
  let img := mkFile "cat.png" "image/png" [] in
  let si := Index.mkState (Some img) (Some 0%nat) true (JStr "old") JNull true false in
  let w := mkWorld [] [] [] [img] None in
  fst (exec Index.resetAnalysis (si, w))
    = Index.mkState None None true JNull JNull true false /\
  fileInput (snd (exec Index.resetAnalysis (si, w))) = None /\
  fileInput (snd (Index.commit (exec Index.resetAnalysis (si, w)))) = Some "".
Proof.
  intros img si w.
  destruct (C5_reset_returns_to_no_file_state si App.initial w)
    as ((_ & _ & _ & _ & Hs) & _ & _ & _ & _ & _ & _ & _ & Hc & _ & Hr).
  split; [exact Hs|]. split; [|exact Hc].
  apply Hr; [reflexivity|]. split; intros; reflexivity.
Defined.

(** *** Dispatch without a file *)

(** C7. Dispatching an analysis while no file is selected issues no network
    call and sets the error message; every other cell, and the rest of the
    browser state, is as before, and no request is pending afterwards. *)
Theorem C7_dispatch_without_file :
  forall (si : Index.State) (sa : App.State) (w : World)
         (mode : Index.Mode) (mode' : string),
    Index.selectedFile si = None ->
    App.selectedFile sa = None ->
    Index.analyzeImage mode (si, w) =
      (Normal false,
       (Index.mkState None (Index.previewUrl si) (Index.isLoading si)
          (JStr "Please select an image first")
          (Index.results si) (Index.apiHealth si) (Index.isDragging si), w)) /\
    App.analyzeImage mode' (sa, w) =
      (Normal false,
       (App.mkState None (App.previewUrl sa) (App.isLoading sa)
          (JStr "Please select an image first")
          (App.results sa) (App.apiHealth sa), w)) /\
    (forall r, snd (exec (Index.analyzeImage_run mode r) (si, w)) = w) /\
    (forall r, snd (exec (App.analyzeImage_run mode' r) (sa, w)) = w).
Proof.
  intros si sa w mode mode' Hi Ha.
  unfold Index.analyzeImage_run, App.analyzeImage_run,
    Index.analyzeImage, App.analyzeImage, exec, bind, read; cbn.
  rewrite Hi, Ha; cbn. rewrite Hi, Ha.
  repeat split.
Qed.

Lemma C7_dispatch_without_file_witness :
  let si := Index.mkState None None false JNull JNull true false in
  let w := empty_world (Some "") in
  Index.analyzeImage Index.action (si, w) =
    (Normal false,
     (Index.mkState None None false (JStr "Please select an image first") JNull true false,
      w)) /\
  requests (snd (exec (App.analyzeImage_run "caption" Rejected) (App.initial, w))) = [].
Proof.
  intros si w.
  pose proof (C7_dispatch_without_file si App.initial w Index.action "caption"
                eq_refl eq_refl) as (Hi & _ & _ & Ha).
  split; [exact Hi|]. now rewrite Ha.
Defined.

(** *** Adopting and rejecting files *)

Lemma nth_error_snoc {A} (l : list A) (a : A) :
  nth_error (l ++ [a]) (List.length l) = Some a /\ nth_error l (List.length l) = None.
Proof.
  split.
  - rewrite nth_error_app2 by auto. now rewrite Nat.sub_diag.
  - apply nth_error_None. auto.
Qed.

Lemma processFile_adopts_Index (file : File) (s : Sys Index.State) :
  adopted_Index file s (exec (Index.processFile file) s).
Proof.
  destruct s as [st w]. repeat split.
  exists (List.length (objectURLs w)). split; [reflexivity|].
  unfold resolveObjectURL; cbn. apply nth_error_snoc.
Qed.

Lemma processFile_adopts_App (file : File) (s : Sys App.State) :
  adopted_App file s (exec (App.processFile file) s).
Proof.
  destruct s as [st w]. repeat split.
  exists (List.length (objectURLs w)). split; [reflexivity|].
  unfold resolveObjectURL; cbn. apply nth_error_snoc.
Qed.

(** C4. Every way of adopting a valid image -- the picker, a drop, the
    sample download, all through [processFile] -- stores the file as the
    selected file, clears the error, clears the analysis result, and sets the
    preview handle to a fresh object URL of that file.  The sample file is
    the downloaded blob under the name [sample.jpg], typed [image/jpeg]. *)
Theorem C4_adopting_a_valid_image :
  forall (si : Index.State) (sa : App.State) (w : World)
         (files : list File) (file : File) (blob : Blob),
    hd_error files = Some file ->
    startsWith (file_type file) "image/" = true ->
    let sample := new_File blob "sample.jpg" "image/jpeg" in
    adopted_Index file (si, w) (exec (Index.processFile file) (si, w)) /\
    adopted_Index file (si, w) (exec (Index.handleImageSelect files) (si, w)) /\
    adopted_Index file (si, w) (exec (Index.handleDrop files) (si, w)) /\
    adopted_Index sample (si, w)
      (exec (Index.loadSampleImage_resume (Resolved blob)) (si, w)) /\
    adopted_App file (sa, w) (exec (App.processFile file) (sa, w)) /\
    adopted_App file (sa, w) (exec (App.handleImageSelect files) (sa, w)) /\
    adopted_App sample (sa, w)
      (exec (App.loadSampleImage_resume (Resolved blob)) (sa, w)).
Proof.
  intros si sa w files file blob Hhd Himg sample.
  pose proof (processFile_adopts_Index file (si, w)) as Pi.
  pose proof (processFile_adopts_App file (sa, w)) as Pa.
  assert (Hpick : exec (Index.handleImageSelect files) (si, w)
                  = exec (Index.processFile file) (si, w)).
  { unfold Index.handleImageSelect. now rewrite Hhd, Himg. }
  assert (Hdrop : exec (Index.handleDrop files) (si, w)
                  = exec (Index.processFile file)
                      (exec (Index.setIsDragging false) (si, w))).
  { unfold Index.handleDrop, exec, bind; cbn. now rewrite Hhd, Himg. }
  assert (Hpick' : exec (App.handleImageSelect files) (sa, w)
                   = exec (App.processFile file) (sa, w)).
  { unfold App.handleImageSelect. now rewrite Hhd, Himg. }
  rewrite Hpick, Hdrop, Hpick'.
  split; [exact Pi|]. split; [exact Pi|].
  split; [exact (processFile_adopts_Index file (exec (Index.setIsDragging false) (si, w)))|].
  split; [exact (processFile_adopts_Index sample (si, w))|].
  split; [exact Pa|]. split; [exact Pa|].
  exact (processFile_adopts_App sample (sa, w)).
Qed.

Lemma C4_adopting_a_valid_image_witness :
  let file := mkFile "cat.png" "image/png" [] in
  let blob := mkBlob "image/jpeg" [] in
  let w := empty_world (Some "cat.png") in
  adopted_Index file (Index.initial, w)
    (exec (Index.handleDrop [file]) (Index.initial, w)) /\
  adopted_App (new_File blob "sample.jpg" "image/jpeg") (App.initial, w)
    (exec (App.loadSampleImage_resume (Resolved blob)) (App.initial, w)).
Proof.
  intros file blob w.
  pose proof (C4_adopting_a_valid_image Index.initial App.initial w [file] file blob
                eq_refl eq_refl) as H.
  split; [apply H | apply H].
Defined.

(** C3, as the spec words it, fails on a drop: a text file dropped on the
    idle screen while the drag highlight is on leaves the error cell null
    (the rejection is only toasted) and switches the highlight off. *)
Lemma C3_drop_counterexample :
  let file := mkFile "notes.txt" "text/plain" [] in
  let before := (Index.mkState None None false JNull JNull false true, empty_world (Some "")) in
  let after := exec (Index.handleDrop [file]) before in
  startsWith (file_type file) "image/" = false /\
  Index.error (fst after) = JNull /\
  Index.isDragging (fst before) = true /\
  Index.isDragging (fst after) = false.
Proof. repeat split. Qed.

(** C3, amended. A non-image file never becomes the selected file and
    never gets a preview handle, and no network call is made.  Through the
    picker the error cell is set and nothing else in the state changes (the
    styled screen also toasts).  Through a drop the error cell is left as it
    was: the rejection is toasted, and the drag highlight is switched off. *)
Theorem C3_rejecting_a_non_image :
  forall (si : Index.State) (sa : App.State) (w : World)
         (files : list File) (file : File),
    hd_error files = Some file ->
    startsWith (file_type file) "image/" = false ->
    Index.handleImageSelect files (si, w) =
      (Normal tt,
       (Index.mkState (Index.selectedFile si) (Index.previewUrl si) (Index.isLoading si)
          (JStr "Please select a valid image file")
          (Index.results si) (Index.apiHealth si) (Index.isDragging si),
        mkWorld (requests w) (toasts w ++ [toast_error "Invalid file type"])
          (console w) (objectURLs w) (fileInput w))) /\
    App.handleImageSelect files (sa, w) =
      (Normal tt,
       (App.mkState (App.selectedFile sa) (App.previewUrl sa) (App.isLoading sa)
          (JStr "Please select a valid image file")
          (App.results sa) (App.apiHealth sa), w)) /\
    Index.handleDrop files (si, w) =
      (Normal tt,
       (Index.mkState (Index.selectedFile si) (Index.previewUrl si) (Index.isLoading si)
          (Index.error si) (Index.results si) (Index.apiHealth si) false,
        mkWorld (requests w) (toasts w ++ [toast_error "Please drop a valid image file"])
          (console w) (objectURLs w) (fileInput w))).
Proof.
  intros si sa w files file Hhd Htxt.
  unfold Index.handleImageSelect, App.handleImageSelect, Index.handleDrop, bind; cbn.
  rewrite Hhd, Htxt; cbn.
  repeat split.
Qed.

Lemma C3_rejecting_a_non_image_witness :
  let file := mkFile "notes.txt" "text/plain" [] in
  let w := empty_world (Some "") in
  Index.error (fst (exec (Index.handleImageSelect [file]) (Index.initial, w)))
    = JStr "Please select a valid image file" /\
  requests (snd (exec (Index.handleDrop [file]) (Index.initial, w))) = [].
Proof.
  intros file w.
  pose proof (C3_rejecting_a_non_image Index.initial App.initial w [file] file
                eq_refl eq_refl) as (Hpick & _ & Hdrop).
  unfold exec. rewrite Hpick, Hdrop. split; reflexivity.
Defined.

(** *** The analysis decision rule *)

Ltac run_comp :=
  unfold exec, outcome, try_finally, try_catch, bind, lift, await,
    response_json, ret, throw; cbn.

(** C1, as the spec words it, fails twice.  The body [null] parses as
    JSON and has no truthy [success], yet the message is the connection
    error, not the fallback; and an [error] field that is present but empty
    is replaced by the fallback. *)
Lemma C1_decision_counterexample :
  let w := empty_world None in
  let null_body := Resolved (mkResponse 200 (Some JNull)) in
  let data := JObj [("success", JBool false); ("error", JStr "")] in
  let empty_error := Resolved (mkResponse 200 (Some data)) in
  Index.error (fst (exec (Index.analyzeImage_resume null_body) (Index.initial, w)))
    = JStr "Failed to analyze image" /\
  spec_error_shown JNull = JStr "Analysis failed" /\
  Index.error (fst (exec (Index.analyzeImage_resume empty_error) (Index.initial, w)))
    = JStr "Analysis failed" /\
  spec_error_shown data = JStr "".
Proof. repeat split. Qed.

(** C1, amended. When the response parses as JSON other than [null]: a
    truthy [success] stores the whole body as the analysis result (the error
    cell is not touched); otherwise the message is the body's [error] field
    if that is truthy, and the fallback [Analysis failed] if it is absent or
    falsy (the result cell is not touched).  When [fetch] rejects, the body
    is not JSON, or the body is [null], the message is the variant's
    connection-error text.  No exception escapes either way. *)
Theorem C1_analysis_decision :
  forall (si : Index.State) (sa : App.State) (w : World) (r : Settled Response),
    let i' := exec (Index.analyzeImage_resume r) (si, w) in
    let a' := exec (App.analyzeImage_resume r) (sa, w) in
    outcome (Index.analyzeImage_resume r) (si, w) = Normal tt /\
    outcome (App.analyzeImage_resume r) (sa, w) = Normal tt /\
    (forall response data,
        r = Resolved response -> json response = Some data -> data <> JNull ->
        if truthy (prop data "success") then
          Index.results (fst i') = data /\ Index.error (fst i') = Index.error si /\
          App.results (fst a') = data /\ App.error (fst a') = App.error sa
        else
          Index.error (fst i') = or_default (prop data "error") (JStr "Analysis failed") /\
          Index.results (fst i') = Index.results si /\
          App.error (fst a') = or_default (prop data "error") (JStr "Analysis failed") /\
          App.results (fst a') = App.results sa) /\
    (caught r = true ->
       Index.error (fst i') = JStr "Failed to analyze image" /\
       App.error (fst a')
         = JStr "Failed to analyze image. Ensure Flask server is running.").
Proof.
  intros si sa w r.
  unfold Index.analyzeImage_resume, App.analyzeImage_resume.
  destruct r as [|[status [data|]]]; run_comp.
  - repeat split; discriminate.
  - destruct data as [| b | x | s | items | fields]; cbn;
      try (repeat split; try discriminate;
           intros response data E J N; inversion E; subst; cbn in J;
           inversion J; subst; first [now elim N | cbn; repeat split]).
    destruct (truthy (lookup "success" fields)) eqn:S; cbn;
      (repeat split; try discriminate;
       intros response data E J N; inversion E; subst; cbn in J;
       inversion J; subst; cbn; rewrite S; repeat split).
  - repeat split; try discriminate.
    intros response data E J; inversion E; subst; discriminate.
Qed.

Lemma C1_analysis_decision_witness :
  let w := empty_world None in
  let data := JObj [("success", JBool false); ("error", JStr "no person found")] in
  Index.error (fst (exec (Index.analyzeImage_resume (Resolved (mkResponse 200 (Some data))))
                      (Index.initial, w)))
    = JStr "no person found" /\
  App.error (fst (exec (App.analyzeImage_resume Rejected) (App.initial, w)))
    = JStr "Failed to analyze image. Ensure Flask server is running.".
Proof.
  intros w data. split.
  - destruct (C1_analysis_decision Index.initial App.initial w
                (Resolved (mkResponse 200 (Some data)))) as (_ & _ & H & _).
    specialize (H (mkResponse 200 (Some data)) data eq_refl eq_refl).
    apply H. discriminate.
  - destruct (C1_analysis_decision Index.initial App.initial w Rejected)
      as (_ & _ & _ & H).
    apply H. reflexivity.
Defined.

(** *** Failed attempts and the stored result *)

(** C2, as the spec words it, fails: pick an image, caption it with
    success, then ask for the action and let the network fail.  The failed
    attempt ends with the earlier result still stored; the plain screen even
    shows it next to the error. *)
Lemma C2_stale_result_counterexample :
  let img := mkFile "cat.png" "image/png" [] in
  let data := JObj [("success", JBool true); ("caption", JStr "a cat")] in
  let ok := Resolved (mkResponse 200 (Some data)) in
  let si := Index.run [Index.InputChange [img];
                       Index.ClickAnalyze Index.caption; Index.AnalyzeSettled ok]
              (Index.mount (empty_world (Some "cat.png"))) in
  let sa := App.run [App.InputChange [img];
                     App.ClickAnalyze "caption"; App.AnalyzeSettled ok]
              (App.mount (empty_world (Some "cat.png"))) in
  succeeded Rejected = false /\
  Index.results (fst (exec (Index.analyzeImage_run Index.action Rejected) si)) = data /\
  App.results (fst (exec (App.analyzeImage_run "action" Rejected) sa)) = data /\
  App.render_sections (fst (exec (App.analyzeImage_run "action" Rejected) sa))
    = Normal (App.mkSections
                (Shown (mkResultsView (Shown (Some (JStr "a cat"))) (Blank undefined)))
                (Shown (JStr "Failed to analyze image. Ensure Flask server is running."))).
Proof. repeat split. Qed.

Lemma resume_failed_keeps_results_Index (r : Settled Response) (s : Sys Index.State) :
  succeeded r = false ->
  Index.results (fst (exec (Index.analyzeImage_resume r) s)) = Index.results (fst s).
Proof.
  unfold Index.analyzeImage_resume.
  destruct s as [st w], r as [|[status [data|]]]; run_comp; try reflexivity.
  destruct data; cbn; try reflexivity.
  intros F; rewrite F; reflexivity.
Qed.

Lemma resume_failed_keeps_results_App (r : Settled Response) (s : Sys App.State) :
  succeeded r = false ->
  App.results (fst (exec (App.analyzeImage_resume r) s)) = App.results (fst s).
Proof.
  unfold App.analyzeImage_resume.
  destruct s as [st w], r as [|[status [data|]]]; run_comp; try reflexivity.
  destruct data; cbn; try reflexivity.
  intros F; rewrite F; reflexivity.
Qed.

(** C2, amended. A failed attempt (the server's [success] is falsy, or
    the transport failed) never stores anything: the analysis result after
    the attempt is the one before it.  So it is unset afterwards when it was
    unset before, and a result stored by an earlier attempt stays. *)
Theorem C2_failed_attempt_keeps_result :
  forall (si : Index.State) (sa : App.State) (w : World)
         (mode : Index.Mode) (mode' : string) (r : Settled Response),
    succeeded r = false ->
    Index.results (fst (exec (Index.analyzeImage_run mode r) (si, w))) = Index.results si /\
    App.results (fst (exec (App.analyzeImage_run mode' r) (sa, w))) = App.results sa /\
    Index.results (fst (exec (Index.analyzeImage_resume r) (si, w))) = Index.results si /\
    App.results (fst (exec (App.analyzeImage_resume r) (sa, w))) = App.results sa.
Proof.
  intros si sa w mode mode' r F.
  split; [|split; [|split]].
  - unfold Index.analyzeImage_run, Index.analyzeImage, exec, bind, read; cbn.
    destruct (Index.selectedFile si); cbn; [|reflexivity].
    match goal with
    | |- Index.results (fst (snd (Index.analyzeImage_resume r ?s))) = _ =>
        exact (resume_failed_keeps_results_Index r s F)
    end.
  - unfold App.analyzeImage_run, App.analyzeImage, exec, bind, read; cbn.
    destruct (App.selectedFile sa); cbn; [|reflexivity].
    destruct (App.endpoint_of mode'); cbn; [|reflexivity].
    match goal with
    | |- App.results (fst (snd (App.analyzeImage_resume r ?s))) = _ =>
        exact (resume_failed_keeps_results_App r s F)
    end.
  - apply (resume_failed_keeps_results_Index r (si, w) F).
  - apply (resume_failed_keeps_results_App r (sa, w) F).
Qed.

Lemma C2_failed_attempt_keeps_result_witness :
  let img := mkFile "cat.png" "image/png" [] in
  let si := Index.mkState (Some img) (Some 0%nat) false JNull JNull true false in
  let r := Resolved (mkResponse 500 (Some (JObj [("success", JBool false)]))) in
  Index.results (fst (exec (Index.analyzeImage_run Index.combined r)
                        (si, empty_world None))) = JNull.
Proof.
  intros img si r.
  apply (C2_failed_attempt_keeps_result si App.initial (empty_world None)
           Index.combined "combined" r eq_refl).
Defined.

(** *** The action card *)

Lemma toFixed_total (x : Number.t) (d : Z) :
  ((d <? 0) || (100 <? d)) = false -> exists s, Number.toFixed x d = Normal s.
Proof.
  intros Hd. unfold Number.toFixed. rewrite Hd.
  destruct x as [| [] | neg m e]; eauto.
  destruct (_ <=? _); eauto.
  destruct (d =? 0); eauto.
Qed.

Lemma Forall_firstn {A} (P : A -> Prop) (n : nat) (l : list A) :
  Forall P l -> Forall P (firstn n l).
Proof.
  intros H; revert n.
  induction H as [|a l Ha _ IH]; intros [|n]; cbn; constructor; auto.
Qed.

Section Rows.
Variable render : JSON -> nat -> completion PredictionRow.
Hypothesis render_ok :
  forall pred index, well_formed_prediction pred ->
    exists row, render pred index = Normal row /\
                row_shows pred row /\ row_rank row = (index + 1)%nat.

Lemma mapi_from_rows (preds : list JSON) :
  Forall well_formed_prediction preds ->
  forall i, exists rows,
    mapi_from i render preds = Normal rows /\
    Forall2 row_shows preds rows /\
    map row_rank rows = seq (i + 1) (List.length preds).
Proof.
  induction 1 as [|pred preds Hp _ IH]; intros i.
  - exists []. repeat split. constructor.
  - destruct (render_ok pred i Hp) as (row & Hr & Hs & Hk).
    destruct (IH (S i)) as (rows & Hrows & Hall & Hranks).
    exists (row :: rows). cbn. rewrite Hr; cbn. rewrite Hrows; cbn.
    repeat split.
    + constructor; assumption.
    + rewrite Hk, Hranks. reflexivity.
Qed.
End Rows.

Lemma render_prediction_ok (d : Z) (pred : JSON) (index : nat) :
  ((d <? 0) || (100 <? d)) = false ->
  well_formed_prediction pred ->
  exists row,
    (let* class := get (Some pred) "class" in
     let* probability := get (Some pred) "probability" in
     let* shown := call_toFixed probability d in
     Normal (mkRow (index + 1) class (shown ++ "%") probability)) = Normal row /\
    row_shows pred row /\ row_rank row = (index + 1)%nat.
Proof.
  intros Hd [x Hx].
  assert (N : pred <> JNull) by (intros ->; discriminate).
  rewrite (get_prop pred "class" N). rewrite (get_prop pred "probability" N) in *.
  inversion Hx as [Hx']. rewrite Hx'. cbn [cbind call_toFixed].
  destruct (toFixed_total x d Hd) as [s ->]; cbn [cbind].
  eexists; split; [reflexivity|]. repeat split. cbn. symmetry; exact Hx'.
Qed.

Lemma facet_defined (results : JSON) (k k' : string) (v : value) :
  facet results k = Normal v -> exists v', facet results k' = Normal v'.
Proof.
  unfold facet.
  destruct (get (Some results) "action") as [a|] eqn:A; cbn; [|discriminate].
  destruct (truthy a) eqn:T.
  - destruct a as [[]|]; cbn in *; try discriminate; eauto.
  - destruct results; cbn in *; try discriminate; eauto.
Qed.

(** With a numeric confidence and a list of well-formed predictions, both
    screens render the action card, and this is what it holds. *)
Lemma render_action_total (results : JSON) (x : Number.t) (preds : list JSON) :
  facet results "confidence" = Normal (Some (JNum x)) ->
  facet results "all_predictions" = Normal (Some (JArr preds)) ->
  Forall well_formed_prediction preds ->
  exists name s1 s2 ri ra,
    Number.toFixed x 1 = Normal s1 /\
    Number.toFixed x 2 = Normal s2 /\
    Index.render_action results = Normal (mkActionCard name (s1 ++ "% confidence") ri) /\
    App.render_action results = Normal (mkActionCard name (s2 ++ "% confidence") ra) /\
    Forall2 row_shows (firstn 5 preds) ri /\
    map row_rank ri = seq 1 (Nat.min 5 (List.length preds)) /\
    Forall2 row_shows preds ra /\
    map row_rank ra = seq 1 (List.length preds).
Proof.
  intros Hc Hp Hwf.
  destruct (facet_defined results _ "predicted_action" _ Hc) as [name Hn].
  destruct (toFixed_total x 1 eq_refl) as [s1 H1].
  destruct (toFixed_total x 2 eq_refl) as [s2 H2].
  pose proof (Forall_firstn well_formed_prediction 5 preds Hwf) as Hwf5.
  destruct (mapi_from_rows Index.render_prediction
              (fun p i => render_prediction_ok 1 p i eq_refl) _ Hwf5 0%nat)
    as (ri & Hri & Hsi & Hki).
  destruct (mapi_from_rows App.render_prediction
              (fun p i => render_prediction_ok 2 p i eq_refl) _ Hwf 0%nat)
    as (ra & Hra & Hsa & Hka).
  exists name, s1, s2, ri, ra.
  rewrite length_firstn in Hki.
  split; [exact H1|]. split; [exact H2|].
  split; [|split; [|repeat split; assumption]].
  - unfold Index.render_action.
    rewrite Hn, Hc, Hp. cbn [cbind call_toFixed]. rewrite H1.
    cbn [cbind call_slice call_map]. rewrite Hri. reflexivity.
  - unfold App.render_action.
    rewrite Hn, Hc, Hp. cbn [cbind call_toFixed]. rewrite H2.
    cbn [cbind call_map]. rewrite Hra. reflexivity.
Qed.

(** *** Rendering the confidence *)

(** It is 6146357960198062 / 2^46, strictly below 87.345 and strictly above
    87.34: binary64 has no 87.345. *)
Lemma confidence_87_345_value :
  confidence_87_345 = Number.Finite false 6146357960198062 (-46) /\
  6146357960198062 * 1000 < 87345 * 2 ^ 46 /\
  8734 * 2 ^ 46 < 6146357960198062 * 100.
Proof. split; [vm_compute; reflexivity | split; vm_compute; reflexivity]. Qed.

Lemma toFixed_87_345 :
  Number.toFixed confidence_87_345 1 = Normal "87.3" /\
  Number.toFixed confidence_87_345 2 = Normal "87.34".
Proof. split; vm_compute; reflexivity. Qed.

(** C6, as the spec words it, fails for the plain screen: [toFixed(2)]
    rounds the stored binary value, which lies below 87.345, to [87.34]. *)
Lemma C6_plain_rounding_counterexample :
  facet running_87_345 "confidence" = Normal (Some (JNum confidence_87_345)) /\
  App.render_action running_87_345
    = Normal (mkActionCard (Some (JStr "running")) "87.34% confidence" []) /\
  "87.34% confidence" <> "87.35% confidence".
Proof.
  split; [reflexivity|]. split; [vm_compute; reflexivity|]. discriminate.
Qed.

(** C6, amended. For a stored result whose [action.confidence] is the
    number written [87.345] (and whose predictions are well formed, so that
    the card renders), the styled screen shows [87.3%] (one decimal) and the
    plain screen shows [87.34%] (two decimals): each rounds the stored binary
    value, which is a little less than 87.345. *)
Theorem C6_confidence_rounding :
  forall (results : JSON) (preds : list JSON),
    facet results "confidence" = Normal (Some (JNum confidence_87_345)) ->
    facet results "all_predictions" = Normal (Some (JArr preds)) ->
    Forall well_formed_prediction preds ->
    exists ci ca,
      Index.render_action results = Normal ci /\
      App.render_action results = Normal ca /\
      action_confidence ci = "87.3% confidence" /\
      action_confidence ca = "87.34% confidence".
Proof.
  intros results preds Hc Hp Hwf.
  destruct (render_action_total results _ preds Hc Hp Hwf)
    as (name & s1 & s2 & ri & ra & H1 & H2 & Hi & Ha & _).
  destruct toFixed_87_345 as [T1 T2].
  rewrite T1 in H1. rewrite T2 in H2.
  injection H1 as <-. injection H2 as <-.
  eexists; eexists. split; [exact Hi|]. split; [exact Ha|]. split; reflexivity.
Qed.

Lemma C6_confidence_rounding_witness :
  exists ci ca,
    Index.render_action running_87_345 = Normal ci /\
    App.render_action running_87_345 = Normal ca /\
    action_confidence ci = "87.3% confidence" /\
    action_confidence ca = "87.34% confidence".
Proof.
  apply (C6_confidence_rounding running_87_345 []).
  - reflexivity.
  - reflexivity.
  - constructor.
Defined.

(** *** The ranked list *)

(** C9. With a stored result whose predictions are a list of well-formed
    entries, both screens render the ranked list without fail, in the order
    the server sent it (row [i] shows entry [i], ranks count up from 1); the
    styled screen shows the first five entries, or all of a shorter list, and
    the plain screen shows every entry. *)
Theorem C9_ranked_list_order_and_cap :
  forall (results : JSON) (x : Number.t) (preds : list JSON),
    facet results "confidence" = Normal (Some (JNum x)) ->
    facet results "all_predictions" = Normal (Some (JArr preds)) ->
    Forall well_formed_prediction preds ->
    exists ci ca,
      Index.render_action results = Normal ci /\
      App.render_action results = Normal ca /\
      Forall2 row_shows (firstn 5 preds) (top_predictions ci) /\
      map row_rank (top_predictions ci) = seq 1 (Nat.min 5 (List.length preds)) /\
      Forall2 row_shows preds (top_predictions ca) /\
      map row_rank (top_predictions ca) = seq 1 (List.length preds).
Proof.
  intros results x preds Hc Hp Hwf.
  destruct (render_action_total results x preds Hc Hp Hwf)
    as (name & s1 & s2 & ri & ra & _ & _ & Hi & Ha & Hsi & Hki & Hsa & Hka).
  eexists; eexists. split; [exact Hi|]. split; [exact Ha|].
  cbn [top_predictions]. repeat split; assumption.
Qed.

Lemma C9_ranked_list_order_and_cap_witness :
  let pred (c : string) (p : Z) :=
    JObj [("class", JStr c); ("probability", JNum (Number.of_decimal false p (-1)))] in
  let preds := [pred "running" 612; pred "walking" 201; pred "jumping" 94;
                pred "sitting" 51; pred "dancing" 30; pred "cycling" 12] in
  let results := JObj [("success", JBool true); ("predicted_action", JStr "running");
                       ("confidence", JNum (Number.of_decimal false 612 (-1)));
                       ("all_predictions", JArr preds)] in
  exists ci ca,
    Index.render_action results = Normal ci /\
    App.render_action results = Normal ca /\
    Forall2 row_shows (firstn 5 preds) (top_predictions ci) /\
    map row_rank (top_predictions ci) = seq 1 (Nat.min 5 (List.length preds)) /\
    Forall2 row_shows preds (top_predictions ca) /\
    map row_rank (top_predictions ca) = seq 1 (List.length preds).
Proof.
  intros pred preds results.
  apply (C9_ranked_list_order_and_cap results
           (Number.of_decimal false 612 (-1)) preds).
  - reflexivity.
  - reflexivity.
  - repeat constructor; eexists; reflexivity.
Defined.

(** *** Results that lack what the renderer reads *)

Lemma call_toFixed_cases (v : value) (d : Z) :
  ((d <? 0) || (100 <? d)) = false ->
  (exists x s, v = Some (JNum x) /\ call_toFixed v d = Normal s) \/
  call_toFixed v d = Throw TypeError.
Proof.
  intros Hd. destruct v as [[| b | x | s | items | fields]|]; cbn; auto.
  destruct (toFixed_total x d Hd) as [s Hs]. left. eauto.
Qed.

Lemma render_action_throws (results : JSON) :
  facet results "confidence" = Normal undefined \/
  facet results "all_predictions" = Normal undefined ->
  Index.render_action results = Throw TypeError /\
  App.render_action results = Throw TypeError.
Proof.
  unfold Index.render_action, App.render_action.
  intros [Hc | Hp].
  - destruct (facet_defined results _ "predicted_action" _ Hc) as [name ->].
    rewrite Hc. split; reflexivity.
  - destruct (facet_defined results _ "predicted_action" _ Hp) as [name ->].
    destruct (facet_defined results _ "confidence" _ Hp) as [conf ->].
    rewrite Hp. cbn [cbind].
    split.
    + destruct (call_toFixed_cases conf 1 eq_refl) as [(x & s & _ & ->) | ->];
        reflexivity.
    + destruct (call_toFixed_cases conf 2 eq_refl) as [(x & s & _ & ->) | ->];
        reflexivity.
Qed.

Lemma render_action_needs (results : JSON) (card : ActionCard) :
  Index.render_action results = Normal card \/ App.render_action results = Normal card ->
  exists x preds,
    facet results "confidence" = Normal (Some (JNum x)) /\
    facet results "all_predictions" = Normal (Some (JArr preds)).
Proof.
  unfold Index.render_action, App.render_action.
  destruct (facet results "predicted_action") as [name|]; cbn [cbind];
    [|intros [H|H]; discriminate].
  destruct (facet results "confidence") as [conf|]; cbn [cbind];
    [|intros [H|H]; discriminate].
  destruct (facet results "all_predictions") as [preds|]; cbn [cbind].
  - intros H.
    assert (exists x, conf = Some (JNum x)) as [x ->].
    { destruct H as [H|H];
        [destruct (call_toFixed_cases conf 1 eq_refl) as [(x & s & -> & _) | E]
        |destruct (call_toFixed_cases conf 2 eq_refl) as [(x & s & -> & _) | E]];
        eauto; rewrite E in H; discriminate. }
    assert (exists l, preds = Some (JArr l)) as [l ->].
    { destruct H as [H|H].
      - destruct (call_toFixed (Some (JNum x)) 1); cbn [cbind] in H; [|discriminate].
        destruct preds as [[| b | y | s | items | fields]|]; cbn in H;
          try discriminate; eauto.
      - destruct (call_toFixed (Some (JNum x)) 2); cbn [cbind] in H; [|discriminate].
        destruct preds as [[| b | y | s | items | fields]|]; cbn in H;
          try discriminate; eauto. }
    eauto.
  - intros [H|H].
    + destruct (call_toFixed conf 1); discriminate.
    + destruct (call_toFixed conf 2); discriminate.
Qed.

Lemma render_results_shown (results : JSON) :
  results <> JNull -> action_shown results = true ->
  Index.render_results results
    = (let* c := Index.render_action results in
       Normal (mkResultsView (if truthy (prop results "caption")
                              then Shown (prop results "caption")
                              else Blank (prop results "caption")) (Shown c))) /\
  App.render_results results
    = (let* c := App.render_action results in
       Normal (mkResultsView (if truthy (prop results "caption")
                              then Shown (prop results "caption")
                              else Blank (prop results "caption")) (Shown c))).
Proof.
  intros N S. unfold Index.render_results, App.render_results, action_shown in *.
  rewrite !(get_prop results _ N). cbn [cbind].
  destruct (truthy (prop results "action")) eqn:A; cbn [cbind].
  - rewrite A.
    destruct (Index.render_action results), (App.render_action results);
      split; reflexivity.
  - cbn in S. rewrite S.
    destruct (Index.render_action results), (App.render_action results);
      split; reflexivity.
Qed.

(** C10. Whenever the action card is rendered ([action] or
    [predicted_action] is truthy), rendering needs [confidence] to be a number
    and [all_predictions] to be a list: if either is absent both screens throw
    a [TypeError] instead of rendering, and that is what happens right after
    a successful response of that shape has been stored; conversely a render
    that completes had both. *)
Theorem C10_render_needs_confidence_and_predictions :
  forall (results : JSON),
    results <> JNull ->
    action_shown results = true ->
    (facet results "confidence" = Normal undefined \/
     facet results "all_predictions" = Normal undefined ->
     Index.render_results results = Throw TypeError /\
     App.render_results results = Throw TypeError /\
     forall (si : Index.State) (sa : App.State) (w : World) (status : nat),
       truthy (prop results "success") = true ->
       Index.error si = JNull ->
       let r := Resolved (mkResponse status (Some results)) in
       Index.render_right (fst (exec (Index.analyzeImage_resume r) (si, w)))
         = Throw TypeError /\
       App.render_sections (fst (exec (App.analyzeImage_resume r) (sa, w)))
         = Throw TypeError) /\
    (forall view,
        Index.render_results results = Normal view \/
        App.render_results results = Normal view ->
        exists x preds,
          facet results "confidence" = Normal (Some (JNum x)) /\
          facet results "all_predictions" = Normal (Some (JArr preds))).
Proof.
  intros results N S.
  destruct (render_results_shown results N S) as [Ri Ra].
  split.
  - intros Hmiss.
    destruct (render_action_throws results Hmiss) as [Ti Ta].
    assert (Hi : Index.render_results results = Throw TypeError)
      by (rewrite Ri, Ti; reflexivity).
    assert (Ha : App.render_results results = Throw TypeError)
      by (rewrite Ra, Ta; reflexivity).
    split; [exact Hi|]. split; [exact Ha|].
    intros si sa w status Hs He r.
    destruct results as [| b | y | s | items | fields]; try discriminate.
    cbn in Hs.
    assert (Ei : Index.results (fst (exec (Index.analyzeImage_resume r) (si, w)))
                 = JObj fields /\
                 Index.error (fst (exec (Index.analyzeImage_resume r) (si, w))) = JNull).
    { unfold r, Index.analyzeImage_resume; run_comp. rewrite Hs. cbn. auto. }
    assert (Ea : App.results (fst (exec (App.analyzeImage_resume r) (sa, w)))
                 = JObj fields /\
                 App.isLoading (fst (exec (App.analyzeImage_resume r) (sa, w))) = false).
    { unfold r, App.analyzeImage_resume; run_comp. rewrite Hs. cbn. auto. }
    unfold Index.render_right, App.render_sections.
    destruct Ei as [-> ->], Ea as [-> ->].
    cbn [truthy negb andb]. rewrite Hi, Ha. split; reflexivity.
  - intros view [H|H].
    + rewrite Ri in H.
      destruct (Index.render_action results) as [c|] eqn:E; [|discriminate].
      apply (render_action_needs results c). now left.
    + rewrite Ra in H.
      destruct (App.render_action results) as [c|] eqn:E; [|discriminate].
      apply (render_action_needs results c). now right.
Qed.

Lemma C10_render_needs_confidence_and_predictions_witness :
  let results := JObj [("success", JBool true); ("predicted_action", JStr "running")] in
  let r := Resolved (mkResponse 200 (Some results)) in
  let w := empty_world None in
  Index.render_right (fst (exec (Index.analyzeImage_resume r) (Index.initial, w)))
    = Throw TypeError /\
  App.render_sections (fst (exec (App.analyzeImage_resume r) (App.initial, w)))
    = Throw TypeError.
Proof.
  intros results r w.
  destruct (C10_render_needs_confidence_and_predictions results) as [H _].
  - discriminate.
  - reflexivity.
  - destruct H as (_ & _ & H); [left; reflexivity|].
    apply (H Index.initial App.initial w 200%nat); reflexivity.
Defined.

(** *** The health probe *)

Lemma healthy_iff (r : Settled Response) :
  healthy r = true <->
  exists response data,
    r = Resolved response /\ json response = Some data /\
    get (Some data) "status" = Normal (Some (JStr "healthy")).
Proof.
  split.
  - destruct r as [|[status [data|]]]; cbn; try discriminate.
    intros H. exists (mkResponse status (Some data)), data.
    repeat split.
    destruct data as [| b | x | s | items | fields]; cbn in *; try discriminate.
    destruct (lookup "status" fields) as [[| b | x | s | items | fs]|];
      cbn in *; try discriminate.
    apply String.eqb_eq in H. now subst.
  - intros (response & data & -> & J & G). cbn. rewrite J.
    destruct data as [| b | x | s | items | fields]; cbn in *; try discriminate.
    inversion G as [G']. now rewrite G'.
Qed.

Lemma health_probes_snoc (base : string) (log : list Request) (req : Request) :
  String.eqb (url req) (base ++ "/health") = false ->
  health_probes base (log ++ [req]) = health_probes base log.
Proof.
  intros H. unfold health_probes. rewrite filter_app, length_app; cbn.
  rewrite H; cbn. apply Nat.add_0_r.
Qed.

Section Keeps.
Context {St X : Type} (f : Sys St -> X).

Lemma keeps_ret {A} (a : A) : keeps f (ret a).
Proof. intros s; reflexivity. Qed.

Lemma keeps_throw {A} (e : exn) : keeps f (@throw St A e).
Proof. intros s; reflexivity. Qed.

Lemma keeps_lift {A} (c : completion A) : keeps f (lift c).
Proof. intros s; reflexivity. Qed.

Lemma keeps_read {A} (g : St -> A) : keeps f (read g).
Proof. intros s; reflexivity. Qed.

Lemma keeps_await {A} (r : Settled A) : keeps f (await r).
Proof. destruct r; intros s; reflexivity. Qed.

Lemma keeps_response_json (r : Response) : keeps f (response_json r).
Proof. unfold response_json. destruct (json r); intros s; reflexivity. Qed.

Lemma keeps_bind {A B} (c : M St A) (k : A -> M St B) :
  keeps f c -> (forall a, keeps f (k a)) -> keeps f (bind c k).
Proof.
  intros Hc Hk s. unfold bind. specialize (Hc s).
  destruct (c s) as [[a|e] s']; cbn in *; [|exact Hc].
  now rewrite Hk.
Qed.

Lemma keeps_try_catch {A} (body handler : M St A) :
  keeps f body -> keeps f handler -> keeps f (try_catch body handler).
Proof.
  intros Hb Hh s. unfold try_catch. specialize (Hb s).
  destruct (body s) as [[a|e] s']; cbn in *; [exact Hb|].
  now rewrite Hh.
Qed.

Lemma keeps_try_finally {A} (body : M St A) (fin : M St unit) :
  keeps f body -> keeps f fin -> keeps f (try_finally body fin).
Proof.
  intros Hb Hf s. unfold try_finally. specialize (Hb s).
  destruct (body s) as [c s']; cbn in *. specialize (Hf s').
  destruct (fin s') as [[u|e] s'']; cbn in *; congruence.
Qed.

Lemma keeps_set_state (g : St -> St) :
  (forall st w, f (g st, w) = f (st, w)) -> keeps f (set_state g).
Proof. intros H [st w]. apply H. Qed.

Lemma keeps_on_world (g : World -> World) :
  (forall st w, f (st, g w) = f (st, w)) -> keeps f (on_world g).
Proof. intros H [st w]. apply H. Qed.

Lemma keeps_createObjectURL (file : File) :
  (forall st w, f (st, mkWorld (requests w) (toasts w) (console w)
                         (objectURLs w ++ [file]) (fileInput w)) = f (st, w)) ->
  keeps f (createObjectURL file).
Proof. intros H [st w]. apply H. Qed.
End Keeps.

Ltac keeps_step :=
  first
    [ apply keeps_ret | apply keeps_throw | apply keeps_lift | apply keeps_read
    | apply keeps_await | apply keeps_response_json
    | apply keeps_bind; [|intros ?]
    | apply keeps_try_finally | apply keeps_try_catch
    | apply keeps_set_state; intros; reflexivity
    | apply keeps_on_world; intros; reflexivity
    | apply keeps_createObjectURL; intros; reflexivity
    | match goal with
      | |- keeps _ (match ?x with _ => _ end) => destruct x
      end ].

Ltac keeps_Index :=
  unfold Index.handle, Index.handleImageSelect, Index.handleDrop, Index.processFile,
    Index.loadSampleImage, Index.loadSampleImage_resume, Index.analyzeImage,
    Index.analyzeImage_resume, Index.resetAnalysis, Index.dismiss,
    Index.checkHealth_resume, Index.checkHealth,
    Index.setSelectedFile, Index.setPreviewUrl, Index.setIsLoading, Index.setError,
    Index.setResults, Index.setApiHealth, Index.setIsDragging,
    fetch, toast, log, clear_fileInput;
  repeat keeps_step.

Ltac keeps_App :=
  unfold App.handle, App.handleImageSelect, App.processFile,
    App.loadSampleImage, App.loadSampleImage_resume, App.analyzeImage,
    App.analyzeImage_resume, App.resetAnalysis, App.dismiss,
    App.checkHealth_resume, App.checkHealth,
    App.setSelectedFile, App.setPreviewUrl, App.setIsLoading, App.setError,
    App.setResults, App.setApiHealth,
    fetch, toast, log, clear_fileInput;
  repeat keeps_step.

(** Only the settled probe writes the connectivity flag. *)
Lemma Index_other_keeps_apiHealth (ev : Index.event) :
  Index_other ev = true ->
  keeps (fun s => Index.apiHealth (fst s)) (Index.handle ev).
Proof. destruct ev; try discriminate; intros _; keeps_Index. Qed.

Lemma App_other_keeps_apiHealth (ev : App.event) :
  App_other ev = true ->
  keeps (fun s => App.apiHealth (fst s)) (App.handle ev).
Proof. destruct ev; try discriminate; intros _; keeps_App. Qed.

Lemma App_endpoint_cases (mode : string) :
  App.endpoint_of mode = None \/ App.endpoint_of mode = Some "/api/caption" \/
  App.endpoint_of mode = Some "/api/action" \/
  App.endpoint_of mode = Some "/api/combined".
Proof.
  unfold App.endpoint_of.
  destruct (mode =? "caption")%string; auto.
  destruct (mode =? "action")%string; auto.
  destruct (mode =? "combined")%string; auto.
Qed.

(** No handler issues a call to the health endpoint. *)
Lemma Index_handle_keeps_probes (ev : Index.event) :
  keeps (fun s => health_probes Index.API_BASE_URL (requests (snd s))) (Index.handle ev).
Proof.
  destruct ev; keeps_Index; apply keeps_on_world; intros; cbn [snd requests];
    try (apply health_probes_snoc; reflexivity).
  destruct mode; apply health_probes_snoc; reflexivity.
Qed.

Lemma App_handle_keeps_probes (ev : App.event) :
  keeps (fun s => health_probes App.API_BASE_URL (requests (snd s))) (App.handle ev).
Proof.
  destruct ev; try (pose proof (App_endpoint_cases mode) as E);
    keeps_App; apply keeps_on_world; intros; cbn [snd requests];
    try (apply health_probes_snoc; reflexivity).
  destruct E as [E | [[= ->] | [[= ->] | [= ->]]]];
    [discriminate E | | | ]; apply health_probes_snoc; reflexivity.
Qed.

Lemma Index_run_app (evs evs' : list Index.event) (s : Sys Index.State) :
  Index.run (evs ++ evs') s = Index.run evs' (Index.run evs s).
Proof. revert s; induction evs as [|ev evs IH]; intros s; cbn; auto. Qed.

Lemma App_run_app (evs evs' : list App.event) (s : Sys App.State) :
  App.run (evs ++ evs') s = App.run evs' (App.run evs s).
Proof. revert s; induction evs as [|ev evs IH]; intros s; cbn; auto. Qed.

Lemma Index_run_keeps_apiHealth (evs : list Index.event) (s : Sys Index.State) :
  forallb Index_other evs = true ->
  Index.apiHealth (fst (Index.run evs s)) = Index.apiHealth (fst s).
Proof.
  revert s; induction evs as [|ev evs IH]; intros s H; cbn in *; [reflexivity|].
  apply andb_prop in H as [Hev Hevs].
  rewrite IH by assumption.
  apply (Index_other_keeps_apiHealth ev Hev s).
Qed.

Lemma App_run_keeps_apiHealth (evs : list App.event) (s : Sys App.State) :
  forallb App_other evs = true ->
  App.apiHealth (fst (App.run evs s)) = App.apiHealth (fst s).
Proof.
  revert s; induction evs as [|ev evs IH]; intros s H; cbn in *; [reflexivity|].
  apply andb_prop in H as [Hev Hevs].
  rewrite IH by assumption.
  apply (App_other_keeps_apiHealth ev Hev s).
Qed.

Lemma Index_run_keeps_probes (evs : list Index.event) (s : Sys Index.State) :
  health_probes Index.API_BASE_URL (requests (snd (Index.run evs s)))
  = health_probes Index.API_BASE_URL (requests (snd s)).
Proof.
  revert s; induction evs as [|ev evs IH]; intros s; cbn; [reflexivity|].
  rewrite IH. apply (Index_handle_keeps_probes ev s).
Qed.

Lemma App_run_keeps_probes (evs : list App.event) (s : Sys App.State) :
  health_probes App.API_BASE_URL (requests (snd (App.run evs s)))
  = health_probes App.API_BASE_URL (requests (snd s)).
Proof.
  revert s; induction evs as [|ev evs IH]; intros s; cbn; [reflexivity|].
  rewrite IH. apply (App_handle_keeps_probes ev s).
Qed.

(** While the flag is still false, the settled probe sets it to its verdict. *)
Lemma Index_checkHealth_resume_verdict (r : Settled Response) (s : Sys Index.State) :
  Index.apiHealth (fst s) = false ->
  Index.apiHealth (fst (exec (Index.checkHealth_resume r) s)) = healthy r.
Proof.
  destruct s as [st w]. unfold Index.checkHealth_resume.
  destruct r as [|[status [data|]]]; run_comp; try reflexivity.
  destruct data as [| b | x | t | items | fields]; cbn; auto.
  destruct (strict_eq_string (lookup "status" fields) "healthy"); cbn; auto.
Qed.

Lemma App_checkHealth_resume_verdict (r : Settled Response) (s : Sys App.State) :
  App.apiHealth (fst s) = false ->
  App.apiHealth (fst (exec (App.checkHealth_resume r) s)) = healthy r.
Proof.
  destruct s as [st w]. unfold App.checkHealth_resume.
  destruct r as [|[status [data|]]]; run_comp; try reflexivity.
  destruct data as [| b | x | t | items | fields]; cbn; auto.
  destruct (strict_eq_string (lookup "status" fields) "healthy"); cbn; auto.
Qed.

(** C8. Mounting issues the health probe, and in every run of the screen
    it stays the only call to the health endpoint: no handler re-checks.
    Connectivity is false until the probe settles; from then on, whatever the
    user does, it is true exactly when the response parsed as JSON with
    [status] equal to the string [healthy], and false after a network failure,
    a body that is not JSON, or any other status. *)
Theorem C8_health_probe_once :
  forall (w : World) (r : Settled Response)
         (pre post : list Index.event) (pre' post' : list App.event),
    forallb Index_other pre = true -> forallb Index_other post = true ->
    forallb App_other pre' = true -> forallb App_other post' = true ->
    Index.apiHealth (fst (Index.run (pre ++ Index.HealthSettled r :: post) (Index.mount w)))
      = healthy r /\
    App.apiHealth (fst (App.run (pre' ++ App.HealthSettled r :: post') (App.mount w)))
      = healthy r /\
    Index.apiHealth (fst (Index.run pre (Index.mount w))) = false /\
    App.apiHealth (fst (App.run pre' (App.mount w))) = false /\
    (healthy r = true <->
     exists response data,
       r = Resolved response /\ json response = Some data /\
       get (Some data) "status" = Normal (Some (JStr "healthy"))) /\
    (forall evs,
        health_probes Index.API_BASE_URL (requests (snd (Index.run evs (Index.mount w))))
        = S (health_probes Index.API_BASE_URL (requests w))) /\
    (forall evs,
        health_probes App.API_BASE_URL (requests (snd (App.run evs (App.mount w))))
        = S (health_probes App.API_BASE_URL (requests w))).
Proof.
  intros w r pre post pre' post' Hpre Hpost Hpre' Hpost'.
  assert (Fi : Index.apiHealth (fst (Index.run pre (Index.mount w))) = false)
    by (rewrite Index_run_keeps_apiHealth by assumption; reflexivity).
  assert (Fa : App.apiHealth (fst (App.run pre' (App.mount w))) = false)
    by (rewrite App_run_keeps_apiHealth by assumption; reflexivity).
  split; [|split; [|split; [exact Fi|split; [exact Fa|split; [apply healthy_iff|]]]]].
  - rewrite Index_run_app; cbn [Index.run].
    rewrite Index_run_keeps_apiHealth by assumption.
    apply (Index_checkHealth_resume_verdict r _ Fi).
  - rewrite App_run_app; cbn [App.run].
    rewrite App_run_keeps_apiHealth by assumption.
    apply (App_checkHealth_resume_verdict r _ Fa).
  - split; intros evs.
    + rewrite Index_run_keeps_probes. unfold Index.mount, Index.commit, Index.checkHealth.
      cbn [exec fetch on_world fst snd requests commit_ref].
      unfold health_probes. rewrite filter_app, length_app. cbn.
      apply Nat.add_1_r.
    + rewrite App_run_keeps_probes. unfold App.mount, App.commit, App.checkHealth.
      cbn [exec fetch on_world fst snd requests commit_ref].
      unfold health_probes. rewrite filter_app, length_app. cbn.
      apply Nat.add_1_r.
Qed.

Lemma C8_health_probe_once_witness :
  let img := mkFile "cat.png" "image/png" [] in
  let down := Resolved (mkResponse 200 (Some (JObj [("status", JStr "down")]))) in
  let w := empty_world (Some "") in
  Index.apiHealth
    (fst (Index.run ([Index.InputChange [img]] ++ Index.HealthSettled down
                       :: [Index.ClickAnalyze Index.caption; Index.ClickReset])
            (Index.mount w))) = false /\
  App.apiHealth
    (fst (App.run ([] ++ App.HealthSettled down :: [App.ClickSample]) (App.mount w)))
    = false.
Proof.
  intros img down w.
  pose proof (C8_health_probe_once w down [Index.InputChange [img]]
                [Index.ClickAnalyze Index.caption; Index.ClickReset]
                [] [App.ClickSample] eq_refl eq_refl eq_refl eq_refl)
    as (Hi & Ha & _).
  split; [exact Hi | exact Ha].
Defined.

(* ================================================================= *)
(** ** Further properties of the two screens *)

(** *** Dispatch: the request and the loading flag *)

Lemma App_endpoint_of_inv (mode endpoint : string) :
  App.endpoint_of mode = Some endpoint ->
  (mode = "caption" /\ endpoint = "/api/caption") \/
  (mode = "action" /\ endpoint = "/api/action") \/
  (mode = "combined" /\ endpoint = "/api/combined").
Proof.
  unfold App.endpoint_of.
  destruct (mode =? "caption")%string eqn:E1;
    [apply String.eqb_eq in E1; intros [= <-]; auto|].
  destruct (mode =? "action")%string eqn:E2;
    [apply String.eqb_eq in E2; intros [= <-]; auto|].
  destruct (mode =? "combined")%string eqn:E3;
    [apply String.eqb_eq in E3; intros [= <-]; auto|].
  discriminate.
Qed.

(** X1. With a file selected, a dispatch turns the loading flag on, clears
    the error, and issues exactly one call: a POST to the endpoint of the
    mode, carrying the selected file under the form field [image]; nothing
    else changes.  The endpoints of different modes differ, so the mode can
    be read back from the endpoint. *)
Theorem dispatch_posts_selected_file :
  forall (si : Index.State) (sa : App.State) (w : World) (file : File)
         (mode : Index.Mode) (mode' endpoint : string),
    Index.selectedFile si = Some file ->
    App.selectedFile sa = Some file ->
    App.endpoint_of mode' = Some endpoint ->
    Index.analyzeImage mode (si, w) =
      (Normal true,
       (Index.mkState (Some file) (Index.previewUrl si) true JNull
          (Index.results si) (Index.apiHealth si) (Index.isDragging si),
        mkWorld (requests w ++
                 [mkRequest "POST" (Index.API_BASE_URL ++ Index.endpoint_of mode)
                    [("image", file)]])
          (toasts w) (console w) (objectURLs w) (fileInput w))) /\
    App.analyzeImage mode' (sa, w) =
      (Normal true,
       (App.mkState (Some file) (App.previewUrl sa) true JNull
          (App.results sa) (App.apiHealth sa),
        mkWorld (requests w ++
                 [mkRequest "POST" (App.API_BASE_URL ++ endpoint) [("image", file)]])
          (toasts w) (console w) (objectURLs w) (fileInput w))) /\
    (forall m1 m2, Index.endpoint_of m1 = Index.endpoint_of m2 -> m1 = m2) /\
    (forall m1 m2 e,
        App.endpoint_of m1 = Some e -> App.endpoint_of m2 = Some e -> m1 = m2).
Proof.
  intros si sa w file mode mode' endpoint Hi Ha He.
  split; [|split; [|split]].
  - unfold Index.analyzeImage, bind, read; cbn. rewrite Hi; cbn. now rewrite Hi.
  - unfold App.analyzeImage, bind, read; cbn. rewrite Ha; cbn. rewrite He; cbn.
    now rewrite Ha.
  - intros [] []; cbn; intros E; first [reflexivity | discriminate E].
  - intros m1 m2 e H1 H2.
    destruct (App_endpoint_of_inv m1 e H1) as [[-> E1]|[[-> E1]|[-> E1]]];
      destruct (App_endpoint_of_inv m2 e H2) as [[-> E2]|[[-> E2]|[-> E2]]];
      first [reflexivity | subst e; discriminate E2].
Qed.

Lemma dispatch_posts_selected_file_witness :
  let img := mkFile "cat.png" "image/png" [] in
  let si := Index.mkState (Some img) (Some 0%nat) false (JStr "old") JNull true false in
  let sa := App.mkState (Some img) (Some 0%nat) false (JStr "old") JNull true in
  requests (snd (exec (Index.analyzeImage Index.combined) (si, empty_world None)))
    = [mkRequest "POST" (Index.API_BASE_URL ++ "/api/combined") [("image", img)]] /\
  requests (snd (exec (App.analyzeImage "action") (sa, empty_world None)))
    = [mkRequest "POST" (App.API_BASE_URL ++ "/api/action") [("image", img)]].
Proof.
  intros img si sa.
  destruct (dispatch_posts_selected_file si sa (empty_world None) img
              Index.combined "action" "/api/action" eq_refl eq_refl eq_refl)
    as (Hi & Ha & _).
  unfold exec. rewrite Hi, Ha. split; reflexivity.
Defined.

Lemma Index_resume_stops_loading (r : Settled Response) (s : Sys Index.State) :
  Index.isLoading (fst (exec (Index.analyzeImage_resume r) s)) = false /\
  outcome (Index.analyzeImage_resume r) s = Normal tt.
Proof.
  unfold Index.analyzeImage_resume.
  destruct s as [st w], r as [|[status [data|]]]; run_comp; auto.
  destruct data as [| b | x | t | items | fields]; cbn; auto.
  destruct (truthy (lookup "success" fields)); cbn; auto.
Qed.

Lemma App_resume_stops_loading (r : Settled Response) (s : Sys App.State) :
  App.isLoading (fst (exec (App.analyzeImage_resume r) s)) = false /\
  outcome (App.analyzeImage_resume r) s = Normal tt.
Proof.
  unfold App.analyzeImage_resume.
  destruct s as [st w], r as [|[status [data|]]]; run_comp; auto.
  destruct data as [| b | x | t | items | fields]; cbn; auto.
  destruct (truthy (lookup "success" fields)); cbn; auto.
Qed.

(** X2. However an analysis settles -- success, a failure reported by the
    server, a body that is not JSON, a network error -- the [finally] block
    runs: the loading flag is off afterwards and no exception leaves the
    handler.  So a whole attempt on a selected file ends with the controls
    enabled again. *)
Theorem analysis_always_stops_loading :
  forall (si : Index.State) (sa : App.State) (w : World) (r : Settled Response)
         (mode : Index.Mode) (mode' endpoint : string) (file : File),
    Index.isLoading (fst (exec (Index.analyzeImage_resume r) (si, w))) = false /\
    App.isLoading (fst (exec (App.analyzeImage_resume r) (sa, w))) = false /\
    outcome (Index.analyzeImage_resume r) (si, w) = Normal tt /\
    outcome (App.analyzeImage_resume r) (sa, w) = Normal tt /\
    (Index.selectedFile si = Some file ->
     Index.isLoading (fst (exec (Index.analyzeImage_run mode r) (si, w))) = false) /\
    (App.selectedFile sa = Some file -> App.endpoint_of mode' = Some endpoint ->
     App.isLoading (fst (exec (App.analyzeImage_run mode' r) (sa, w))) = false).
Proof.
  intros si sa w r mode mode' endpoint file.
  destruct (Index_resume_stops_loading r (si, w)) as [Li Oi].
  destruct (App_resume_stops_loading r (sa, w)) as [La Oa].
  repeat (split; [assumption|]).
  split.
  - intros Hf. unfold Index.analyzeImage_run, Index.analyzeImage, exec, bind, read; cbn.
    rewrite Hf; cbn.
    match goal with
    | |- Index.isLoading (fst (snd (Index.analyzeImage_resume r ?s))) = _ =>
        exact (proj1 (Index_resume_stops_loading r s))
    end.
  - intros Hf He. unfold App.analyzeImage_run, App.analyzeImage, exec, bind, read; cbn.
    rewrite Hf; cbn. rewrite He; cbn.
    match goal with
    | |- App.isLoading (fst (snd (App.analyzeImage_resume r ?s))) = _ =>
        exact (proj1 (App_resume_stops_loading r s))
    end.
Qed.

Lemma analysis_always_stops_loading_witness :
  let img := mkFile "cat.png" "image/png" [] in
  let si := Index.mkState (Some img) (Some 0%nat) false JNull JNull true false in
  Index.isLoading
    (fst (exec (Index.analyzeImage_run Index.caption (Resolved (mkResponse 502 None)))
            (si, empty_world None))) = false.
Proof.
  intros img si.
  destruct (analysis_always_stops_loading si App.initial (empty_world None)
              (Resolved (mkResponse 502 None)) Index.caption "caption" "/api/caption" img)
    as (_ & _ & _ & _ & H & _).
  apply H. reflexivity.
Defined.

(** X3. In the plain screen a mode outside the three known ones takes the
    [default: return] of the switch after the loading flag was turned on: no
    call is issued, nothing is pending that could turn the flag off again,
    and the analysis buttons stay disabled. *)
Theorem App_unknown_mode_leaves_loading_on :
  forall (sa : App.State) (w : World) (mode : string) (file : File),
    App.selectedFile sa = Some file ->
    App.endpoint_of mode = None ->
    App.analyzeImage mode (sa, w) =
      (Normal false,
       (App.mkState (Some file) (App.previewUrl sa) true JNull
          (App.results sa) (App.apiHealth sa), w)) /\
    forall r, App.isLoading (fst (exec (App.analyzeImage_run mode r) (sa, w))) = true.
Proof.
  intros sa w mode file Hf He.
  unfold App.analyzeImage_run, App.analyzeImage, exec, bind, read; cbn.
  rewrite Hf; cbn. rewrite He; cbn. rewrite Hf. split; reflexivity.
Qed.

Lemma App_unknown_mode_leaves_loading_on_witness :
  let img := mkFile "cat.png" "image/png" [] in
  let sa := App.mkState (Some img) (Some 0%nat) false JNull JNull true in
  App.isLoading (fst (exec (App.analyzeImage_run "segment" Rejected)
                        (sa, empty_world None))) = true.
Proof.
  intros img sa.
  apply (App_unknown_mode_leaves_loading_on sa (empty_world None) "segment" img
           eq_refl eq_refl).
Defined.

(** *** The sample download *)


(** *** Empty selections *)

(** X5. A change event of the picker without a file (the dialog was
    cancelled) changes nothing at all, in either screen.  A drop without a
    file is refused like a wrong file type: one error toast, the drag
    highlight goes off, nothing else changes and no call is issued. *)
Theorem empty_selection_adopts_nothing :
  forall (si : Index.State) (sa : App.State) (w : World),
    Index.handleImageSelect [] (si, w) = (Normal tt, (si, w)) /\
    App.handleImageSelect [] (sa, w) = (Normal tt, (sa, w)) /\
    Index.handleDrop [] (si, w) =
      (Normal tt,
       (Index.mkState (Index.selectedFile si) (Index.previewUrl si) (Index.isLoading si)
          (Index.error si) (Index.results si) (Index.apiHealth si) false,
        mkWorld (requests w) (toasts w ++ [toast_error "Please drop a valid image file"])
          (console w) (objectURLs w) (fileInput w))).
Proof. intros si sa w. repeat split. Qed.

(** *** Dismissing an error, and resetting while a request is pending *)

Lemma Index_failed_resume_state (r : Settled Response) (st : Index.State) (w : World) :
  succeeded r = false ->
  fst (exec (Index.analyzeImage_resume r) (st, w))
  = Index.mkState (Index.selectedFile st) (Index.previewUrl st) false
      (failure_message "Failed to analyze image" r)
      (Index.results st) (Index.apiHealth st) (Index.isDragging st).
Proof.
  unfold Index.analyzeImage_resume.
  destruct r as [|[status [data|]]]; run_comp; try reflexivity.
  destruct data as [| b | x | t | items | fields]; cbn; try reflexivity.
  intros F; rewrite F; reflexivity.
Qed.

Lemma App_failed_resume_state (r : Settled Response) (st : App.State) (w : World) :
  succeeded r = false ->
  fst (exec (App.analyzeImage_resume r) (st, w))
  = App.mkState (App.selectedFile st) (App.previewUrl st) false
      (failure_message "Failed to analyze image. Ensure Flask server is running." r)
      (App.results st) (App.apiHealth st).
Proof.
  unfold App.analyzeImage_resume.
  destruct r as [|[status [data|]]]; run_comp; try reflexivity.
  destruct data as [| b | x | t | items | fields]; cbn; try reflexivity.
  intros F; rewrite F; reflexivity.
Qed.

(** X6. Dismissing the error of a failed attempt puts the screen back where
    it was before the attempt: same file, same preview, same stored result,
    no error, controls enabled.  The user can retry without selecting the
    file again. *)
Theorem dismiss_after_failure_restores_state :
  forall (si : Index.State) (sa : App.State) (w : World) (r : Settled Response)
         (mode : Index.Mode) (mode' endpoint : string) (file : File),
    succeeded r = false ->
    Index.selectedFile si = Some file -> Index.error si = JNull ->
    Index.isLoading si = false ->
    App.selectedFile sa = Some file -> App.error sa = JNull ->
    App.isLoading sa = false ->
    App.endpoint_of mode' = Some endpoint ->
    fst (exec Index.dismiss (exec (Index.analyzeImage_run mode r) (si, w))) = si /\
    fst (exec App.dismiss (exec (App.analyzeImage_run mode' r) (sa, w))) = sa.
Proof.
  intros si sa w r mode mode' endpoint file F Hf He Hl Hf' He' Hl' Hm.
  assert (Ei : fst (exec (Index.analyzeImage_run mode r) (si, w))
               = Index.mkState (Some file) (Index.previewUrl si) false
                   (failure_message "Failed to analyze image" r)
                   (Index.results si) (Index.apiHealth si) (Index.isDragging si)).
  { unfold Index.analyzeImage_run, Index.analyzeImage, exec, bind, read; cbn.
    rewrite Hf; cbn.
    match goal with
    | |- fst (snd (Index.analyzeImage_resume r (?st, ?w'))) = _ =>
        etransitivity; [exact (Index_failed_resume_state r st w' F)|]
    end.
    cbn. now rewrite Hf. }
  assert (Ea : fst (exec (App.analyzeImage_run mode' r) (sa, w))
               = App.mkState (Some file) (App.previewUrl sa) false
                   (failure_message
                      "Failed to analyze image. Ensure Flask server is running." r)
                   (App.results sa) (App.apiHealth sa)).
  { unfold App.analyzeImage_run, App.analyzeImage, exec, bind, read; cbn.
    rewrite Hf'; cbn. rewrite Hm; cbn.
    match goal with
    | |- fst (snd (App.analyzeImage_resume r (?st, ?w'))) = _ =>
        etransitivity; [exact (App_failed_resume_state r st w' F)|]
    end.
    cbn. now rewrite Hf'. }
  unfold Index.dismiss, App.dismiss, Index.setError, App.setError.
  unfold exec at 1 3. unfold set_state. cbn [fst snd].
  rewrite Ei, Ea. cbn.
  destruct si, sa; cbn in *; subst; split; reflexivity.
Qed.

Lemma dismiss_after_failure_restores_state_witness :
  let img := mkFile "cat.png" "image/png" [] in
  let old := JObj [("success", JBool true); ("caption", JStr "a cat")] in
  let si := Index.mkState (Some img) (Some 0%nat) false JNull old true false in
  let sa := App.mkState (Some img) (Some 0%nat) false JNull old false in
  let r := Resolved (mkResponse 500 (Some (JObj [("error", JStr "model not loaded")]))) in
  fst (exec Index.dismiss (exec (Index.analyzeImage_run Index.action r)
                             (si, empty_world None))) = si /\
  fst (exec App.dismiss (exec (App.analyzeImage_run "action" r)
                           (sa, empty_world None))) = sa.
Proof.
  intros img old si sa r.
  apply (dismiss_after_failure_restores_state si sa (empty_world None) r
           Index.action "action" "/api/action" img);
    reflexivity.
Defined.

(** X7. A reset does not cancel a pending analysis.  When its successful
    response arrives after the reset, the body is stored all the same: the
    screen then holds a result although no file is selected and no preview
    exists. *)
Theorem reset_does_not_cancel_pending_analysis :
  forall (si : Index.State) (sa : App.State) (w : World)
         (response : Response) (data : JSON),
    json response = Some data ->
    truthy (prop data "success") = true ->
    let i' := exec (Index.analyzeImage_resume (Resolved response))
                (exec Index.resetAnalysis (si, w)) in
    let a' := exec (App.analyzeImage_resume (Resolved response))
                (exec App.resetAnalysis (sa, w)) in
    (Index.results (fst i') = data /\ Index.selectedFile (fst i') = None /\
     Index.previewUrl (fst i') = None /\
     Index.render_left (fst i') = Index.UploadPanel (Index.isDragging si) false) /\
    (App.results (fst a') = data /\ App.selectedFile (fst a') = None /\
     App.previewUrl (fst a') = None).
Proof.
  intros si sa w [status body] data J S; cbn in J; subst body.
  unfold Index.analyzeImage_resume, App.analyzeImage_resume; run_comp.
  destruct data as [| b | x | t | items | fields]; cbn in S; try discriminate.
  cbn. rewrite S. cbn. repeat split.
Qed.

Lemma reset_does_not_cancel_pending_analysis_witness :
  let data := JObj [("success", JBool true); ("caption", JStr "a cat")] in
  let img := mkFile "cat.png" "image/png" [] in
  let si := Index.mkState (Some img) (Some 0%nat) true JNull JNull true false in
  Index.results
    (fst (exec (Index.analyzeImage_resume (Resolved (mkResponse 200 (Some data))))
            (exec Index.resetAnalysis (si, empty_world None)))) = data.
Proof.
  intros data img si.
  apply (reset_does_not_cancel_pending_analysis si App.initial (empty_world None)
           (mkResponse 200 (Some data)) data eq_refl eq_refl).
Defined.

(** *** Invariants of every run *)

Section Maintains.
Context {St : Type} (I : Sys St -> Prop).

Lemma maintains_ret {A} (a : A) : maintains I (ret a).
Proof. intros s H; exact H. Qed.

Lemma maintains_throw {A} (e : exn) : maintains I (@throw St A e).
Proof. intros s H; exact H. Qed.

Lemma maintains_lift {A} (c : completion A) : maintains I (lift c).
Proof. intros s H; exact H. Qed.

Lemma maintains_read {A} (g : St -> A) : maintains I (read g).
Proof. intros s H; exact H. Qed.

Lemma maintains_await {A} (r : Settled A) : maintains I (await r).
Proof. destruct r; intros s H; exact H. Qed.

Lemma maintains_response_json (r : Response) : maintains I (response_json r).
Proof. unfold response_json. destruct (json r); intros s H; exact H. Qed.

Lemma maintains_bind {A B} (c : M St A) (k : A -> M St B) :
  maintains I c -> (forall a, maintains I (k a)) -> maintains I (bind c k).
Proof.
  intros Hc Hk s H. unfold bind. specialize (Hc s H).
  destruct (c s) as [[a|e] s']; cbn in *; [|exact Hc].
  now apply Hk.
Qed.

Lemma maintains_try_catch {A} (body handler : M St A) :
  maintains I body -> maintains I handler -> maintains I (try_catch body handler).
Proof.
  intros Hb Hh s H. unfold try_catch. specialize (Hb s H).
  destruct (body s) as [[a|e] s']; cbn in *; [exact Hb|].
  now apply Hh.
Qed.

Lemma maintains_try_finally {A} (body : M St A) (fin : M St unit) :
  maintains I body -> maintains I fin -> maintains I (try_finally body fin).
Proof.
  intros Hb Hf s H. unfold try_finally. specialize (Hb s H).
  destruct (body s) as [c s']; cbn in *. specialize (Hf s' Hb).
  destruct (fin s') as [[u|e] s'']; cbn in *; exact Hf.
Qed.

Lemma maintains_set_state (g : St -> St) :
  (forall st w, I (st, w) -> I (g st, w)) -> maintains I (set_state g).
Proof. intros H [st w]. apply H. Qed.

Lemma maintains_on_world (g : World -> World) :
  (forall st w, I (st, w) -> I (st, g w)) -> maintains I (on_world g).
Proof. intros H [st w]. apply H. Qed.

Lemma maintains_createObjectURL (file : File) :
  (forall st w, I (st, w) ->
                I (st, mkWorld (requests w) (toasts w) (console w)
                         (objectURLs w ++ [file]) (fileInput w))) ->
  maintains I (createObjectURL file).
Proof. intros H [st w]. apply H. Qed.

Lemma keeps_maintains {A X} (f : Sys St -> X) (c : M St A) :
  (forall s s', f s = f s' -> I s -> I s') -> keeps f c -> maintains I c.
Proof. intros Hf Hk s H. apply (Hf s); [symmetry; apply Hk | exact H]. Qed.
End Maintains.

Ltac maintains_with leaf :=
  repeat first
    [ apply maintains_ret | apply maintains_throw | apply maintains_lift
    | apply maintains_read | apply maintains_await | apply maintains_response_json
    | apply maintains_bind; [|intros ?]
    | apply maintains_try_finally | apply maintains_try_catch
    | apply maintains_set_state; intros ? ? ?; cbn in *; leaf
    | apply maintains_on_world; intros ? ? ?; cbn in *; leaf
    | apply maintains_createObjectURL; intros ? ? ?; cbn in *; leaf
    | match goal with
      | |- maintains _ (match ?x with _ => _ end) => destruct x
      end ].

Ltac unfold_handlers :=
  unfold Index.handle, Index.handleImageSelect, Index.handleDrop, Index.processFile,
    Index.loadSampleImage, Index.loadSampleImage_resume, Index.analyzeImage,
    Index.analyzeImage_resume, Index.resetAnalysis, Index.dismiss,
    Index.checkHealth_resume, Index.checkHealth,
    Index.setSelectedFile, Index.setPreviewUrl, Index.setIsLoading, Index.setError,
    Index.setResults, Index.setApiHealth, Index.setIsDragging,
    App.handle, App.handleImageSelect, App.processFile,
    App.loadSampleImage, App.loadSampleImage_resume, App.analyzeImage,
    App.analyzeImage_resume, App.resetAnalysis, App.dismiss,
    App.checkHealth_resume, App.checkHealth,
    App.setSelectedFile, App.setPreviewUrl, App.setIsLoading, App.setError,
    App.setResults, App.setApiHealth,
    fetch, toast, log, clear_fileInput.

Lemma Index_run_maintains (I : Sys Index.State -> Prop) :
  (forall ev, maintains I (Index.handle ev)) ->
  (forall s, I s -> I (Index.commit s)) ->
  forall evs s, I s -> I (Index.run evs s).
Proof.
  intros H C evs. induction evs as [|ev evs IH]; intros s Hs; cbn; [exact Hs|].
  apply IH. apply C. apply (H ev s Hs).
Qed.

Lemma App_run_maintains (I : Sys App.State -> Prop) :
  (forall ev, maintains I (App.handle ev)) ->
  (forall s, I s -> I (App.commit s)) ->
  forall evs s, I s -> I (App.run evs s).
Proof.
  intros H C evs. induction evs as [|ev evs IH]; intros s Hs; cbn; [exact Hs|].
  apply IH. apply C. apply (H ev s Hs).
Qed.

Lemma resolve_extends (l extra : list File) (u : ObjectURL) (file : File) :
  nth_error l u = Some file -> nth_error (l ++ extra) u = Some file.
Proof.
  intros H. rewrite nth_error_app1; [exact H|].
  apply nth_error_Some. congruence.
Qed.

(** X8. Object URLs are never revoked: whatever the user does and whatever
    arrives, a handle that resolved to a file keeps resolving to that file.
    (Every adoption adds one; nothing releases them.) *)
Theorem object_urls_are_never_revoked :
  forall (w : World) (u : ObjectURL) (file : File)
         (si : Index.State) (sa : App.State)
         (evs : list Index.event) (evs' : list App.event),
    resolveObjectURL w u = Some file ->
    resolveObjectURL (snd (Index.run evs (si, w))) u = Some file /\
    resolveObjectURL (snd (App.run evs' (sa, w))) u = Some file.
Proof.
  intros w u file si sa evs evs' H. split.
  - apply (Index_run_maintains
             (fun s => resolveObjectURL (snd s) u = Some file));
      [|intros s Hs; exact Hs|exact H].
    intros ev. destruct ev; unfold_handlers;
      maintains_with ltac:(first [assumption
                                 | unfold resolveObjectURL in *; cbn;
                                   apply resolve_extends; assumption]).
  - apply (App_run_maintains
             (fun s => resolveObjectURL (snd s) u = Some file));
      [|intros s Hs; exact Hs|exact H].
    intros ev. destruct ev; unfold_handlers;
      maintains_with ltac:(first [assumption
                                 | unfold resolveObjectURL in *; cbn;
                                   apply resolve_extends; assumption]).
Qed.

Lemma object_urls_are_never_revoked_witness :
  let img := mkFile "cat.png" "image/png" [] in
  let other := mkFile "dog.png" "image/png" [] in
  let w := mkWorld [] [] [] [img] (Some "") in
  resolveObjectURL
    (snd (Index.run [Index.ClickReset; Index.InputChange [other]; Index.ClickReset]
            (Index.initial, w))) 0%nat = Some img.
Proof.
  intros img other w.
  apply (object_urls_are_never_revoked w 0%nat img Index.initial App.initial
           [Index.ClickReset; Index.InputChange [other]; Index.ClickReset] []
           eq_refl).
Defined.

Lemma Index_handle_maintains_preview (ev : Index.event) :
  maintains (fun s => preview_matches_file (Index.selectedFile (fst s))
                        (Index.previewUrl (fst s)) (snd s))
    (Index.handle ev).
Proof.
  set (I := fun s : Sys Index.State =>
              preview_matches_file (Index.selectedFile (fst s))
                (Index.previewUrl (fst s)) (snd s)).
  assert (P : forall file, maintains I (Index.processFile file)).
  { intros file [st w] _. unfold I, preview_matches_file, resolveObjectURL; cbn.
    apply nth_error_snoc. }
  assert (K : forall A (c : M Index.State A),
             keeps (fun s => (Index.selectedFile (fst s), Index.previewUrl (fst s),
                              objectURLs (snd s))) c ->
             maintains I c).
  { intros A c. apply keeps_maintains.
    intros [st w] [st' w'] E; cbn in E. injection E as E1 E2 E3.
    unfold I, preview_matches_file, resolveObjectURL; cbn.
    now rewrite E1, E2, E3. }
  destruct ev; cbn [Index.handle].
  - unfold Index.handleImageSelect.
    destruct (hd_error files) as [file|]; [|apply maintains_ret].
    destruct (negb _); [apply K; keeps_Index | apply P].
  - apply K; keeps_Index.
  - apply K; keeps_Index.
  - unfold Index.handleDrop. apply maintains_bind; [apply K; keeps_Index|intros _].
    destruct (hd_error files) as [file|]; [|apply K; keeps_Index].
    destruct (startsWith _ _); [apply P | apply K; keeps_Index].
  - apply K; keeps_Index.
  - unfold Index.loadSampleImage_resume.
    apply maintains_try_finally; [|apply K; keeps_Index].
    apply maintains_try_catch; [|apply K; keeps_Index].
    apply maintains_bind; [apply maintains_await | intros blob; apply P].
  - apply K; keeps_Index.
  - apply K; keeps_Index.
  - intros [st w] _. exact Logic.I.
  - apply K; keeps_Index.
  - apply K; keeps_Index.
Qed.

Lemma App_handle_maintains_preview (ev : App.event) :
  maintains (fun s => preview_matches_file (App.selectedFile (fst s))
                        (App.previewUrl (fst s)) (snd s))
    (App.handle ev).
Proof.
  set (I := fun s : Sys App.State =>
              preview_matches_file (App.selectedFile (fst s))
                (App.previewUrl (fst s)) (snd s)).
  assert (P : forall file, maintains I (App.processFile file)).
  { intros file [st w] _. unfold I, preview_matches_file, resolveObjectURL; cbn.
    apply nth_error_snoc. }
  assert (K : forall A (c : M App.State A),
             keeps (fun s => (App.selectedFile (fst s), App.previewUrl (fst s),
                              objectURLs (snd s))) c ->
             maintains I c).
  { intros A c. apply keeps_maintains.
    intros [st w] [st' w'] E; cbn in E. injection E as E1 E2 E3.
    unfold I, preview_matches_file, resolveObjectURL; cbn.
    now rewrite E1, E2, E3. }
  destruct ev; cbn [App.handle].
  - unfold App.handleImageSelect.
    destruct (hd_error files) as [file|]; [|apply maintains_ret].
    destruct (negb _); [apply K; keeps_App | apply P].
  - apply K; keeps_App.
  - unfold App.loadSampleImage_resume.
    apply maintains_try_finally; [|apply K; keeps_App].
    apply maintains_try_catch; [|apply K; keeps_App].
    apply maintains_bind; [apply maintains_await | intros blob; apply P].
  - apply K; keeps_App.
  - apply K; keeps_App.
  - intros [st w] _. exact Logic.I.
  - apply K; keeps_App.
  - apply K; keeps_App.
Qed.

(** X9. In every state either screen can reach from its mount, the selected
    file and the preview handle go together: there is a preview exactly when
    a file is selected, and the preview handle resolves to that very file.
    So the image on screen is always the one an analysis would send. *)
Theorem preview_always_shows_selected_file :
  forall (w : World) (evs : list Index.event) (evs' : list App.event),
    let i := Index.run evs (Index.mount w) in
    let a := App.run evs' (App.mount w) in
    preview_matches_file (Index.selectedFile (fst i)) (Index.previewUrl (fst i)) (snd i) /\
    preview_matches_file (App.selectedFile (fst a)) (App.previewUrl (fst a)) (snd a) /\
    (Index.selectedFile (fst i) = None <-> Index.previewUrl (fst i) = None) /\
    (App.selectedFile (fst a) = None <-> App.previewUrl (fst a) = None).
Proof.
  intros w evs evs' i a.
  assert (Hi : preview_matches_file (Index.selectedFile (fst i))
                 (Index.previewUrl (fst i)) (snd i)).
  { apply (Index_run_maintains _ Index_handle_maintains_preview
             (fun s Hs => Hs) evs (Index.mount w)).
    exact Logic.I. }
  assert (Ha : preview_matches_file (App.selectedFile (fst a))
                 (App.previewUrl (fst a)) (snd a)).
  { apply (App_run_maintains _ App_handle_maintains_preview
             (fun s Hs => Hs) evs' (App.mount w)).
    exact Logic.I. }
  split; [exact Hi|]. split; [exact Ha|].
  unfold preview_matches_file in Hi, Ha.
  split.
  - destruct (Index.selectedFile (fst i)), (Index.previewUrl (fst i));
      try contradiction; split; intros E; first [reflexivity | discriminate E].
  - destruct (App.selectedFile (fst a)), (App.previewUrl (fst a));
      try contradiction; split; intros E; first [reflexivity | discriminate E].
Qed.

(** *** Network calls: only on request, never repeated *)

Lemma Index_quiet_keeps_requests (ev : Index.event) :
  Index_dispatches ev = false ->
  keeps (fun s => requests (snd s)) (Index.handle ev).
Proof. destruct ev; try discriminate; intros _; keeps_Index. Qed.

Lemma App_quiet_keeps_requests (ev : App.event) :
  App_dispatches ev = false ->
  keeps (fun s => requests (snd s)) (App.handle ev).
Proof. destruct ev; try discriminate; intros _; keeps_App. Qed.

Lemma Index_handle_requests (ev : Index.event) (s : Sys Index.State) :
  (List.length (requests (snd (exec (Index.handle ev) s)))
   <= List.length (requests (snd s)) + (if Index_dispatches ev then 1 else 0))%nat.
Proof.
  destruct (Index_dispatches ev) eqn:D.
  - destruct s as [st w], ev; try discriminate.
    + cbn. rewrite length_app; cbn. lia.
    + unfold Index.handle, Index.analyzeImage, exec, bind, read; cbn.
      destruct (Index.selectedFile st); cbn; [rewrite length_app; cbn|]; lia.
  - unfold exec. rewrite (Index_quiet_keeps_requests ev D s). lia.
Qed.

Lemma App_handle_requests (ev : App.event) (s : Sys App.State) :
  (List.length (requests (snd (exec (App.handle ev) s)))
   <= List.length (requests (snd s)) + (if App_dispatches ev then 1 else 0))%nat.
Proof.
  destruct (App_dispatches ev) eqn:D.
  - destruct s as [st w], ev; try discriminate.
    + cbn. rewrite length_app; cbn. lia.
    + unfold App.handle, App.analyzeImage, exec, bind, read; cbn.
      destruct (App.selectedFile st); cbn; [|lia].
      destruct (App.endpoint_of mode); cbn; [rewrite length_app; cbn|]; lia.
  - unfold exec. rewrite (App_quiet_keeps_requests ev D s). lia.
Qed.

(** X10. Network calls happen only when the user asks for the sample or for
    an analysis, and each such click issues at most one.  Everything else --
    picking, dropping, resetting, dismissing, and above all the arrival of a
    response or of a failure -- leaves the network log as it is: nothing is
    retried.  Over a whole run, the calls issued are at most the clicks. *)
Theorem calls_only_on_click_and_never_retried :
  forall (si : Index.State) (sa : App.State) (w : World)
         (evs : list Index.event) (evs' : list App.event),
    (forall ev, Index_dispatches ev = false ->
                requests (snd (exec (Index.handle ev) (si, w))) = requests w) /\
    (forall ev, App_dispatches ev = false ->
                requests (snd (exec (App.handle ev) (sa, w))) = requests w) /\
    (List.length (requests (snd (Index.run evs (si, w))))
     <= List.length (requests w) + List.length (filter Index_dispatches evs))%nat /\
    (List.length (requests (snd (App.run evs' (sa, w))))
     <= List.length (requests w) + List.length (filter App_dispatches evs'))%nat.
Proof.
  intros si sa w evs evs'.
  split; [intros ev D; exact (Index_quiet_keeps_requests ev D (si, w))|].
  split; [intros ev D; exact (App_quiet_keeps_requests ev D (sa, w))|].
  split.
  - change w with (snd (si, w)) at 2. generalize (si, w) as s.
    induction evs as [|ev evs IH]; intros s; cbn [Index.run filter]; [lia|].
    specialize (IH (Index.commit (exec (Index.handle ev) s))).
    pose proof (Index_handle_requests ev s) as H.
    cbn [Index.commit commit_ref fst snd requests] in IH.
    destruct (Index_dispatches ev); cbn [List.length]; lia.
  - change w with (snd (sa, w)) at 2. generalize (sa, w) as s.
    induction evs' as [|ev evs' IH]; intros s; cbn [App.run filter]; [lia|].
    specialize (IH (App.commit (exec (App.handle ev) s))).
    pose proof (App_handle_requests ev s) as H.
    cbn [App.commit commit_ref fst snd requests] in IH.
    destruct (App_dispatches ev); cbn [List.length]; lia.
Qed.

(** *** What the data cells can hold *)

Lemma or_default_truthy (a : value) (b : JSON) :
  truthy (Some b) = true -> truthy (Some (or_default a b)) = true.
Proof.
  intros Hb. destruct a as [v|]; cbn; [|exact Hb].
  destruct v; cbn in *; try assumption; try reflexivity.
  - destruct b0; [reflexivity | exact Hb].
  - destruct (negb (Number.is_zero_or_nan x)) eqn:E; [exact E | exact Hb].
  - destruct (negb (s =? "")%string) eqn:E; [exact E | exact Hb].
Qed.

Ltac cells_leaf :=
  idtac;
  match goal with
  | H : _ /\ _ |- _ /\ _ =>
      destruct H; split;
      first [assumption | left; reflexivity | right; reflexivity]
  end.

Lemma Index_handle_maintains_cells (ev : Index.event) :
  maintains (fun s => null_or_success (Index.results (fst s)) /\
                      null_or_truthy (Index.error (fst s)))
    (Index.handle ev).
Proof.
  destruct ev; try (unfold_handlers; maintains_with cells_leaf; fail).
  cbn [Index.handle]. intros [st w] [Hr He].
  unfold Index.analyzeImage_resume.
  destruct r as [|[status [data|]]]; run_comp;
    try (split; [assumption | right; reflexivity]).
  destruct data as [| b | x | t | items | fields]; cbn;
    try (split; [assumption | right; reflexivity]).
  destruct (truthy (lookup "success" fields)) eqn:S; cbn.
  - split; [right; exact S | assumption].
  - split; [assumption | right; apply or_default_truthy; reflexivity].
Qed.

Lemma App_handle_maintains_cells (ev : App.event) :
  maintains (fun s => null_or_success (App.results (fst s)) /\
                      null_or_truthy (App.error (fst s)))
    (App.handle ev).
Proof.
  destruct ev; try (unfold_handlers; maintains_with cells_leaf; fail).
  cbn [App.handle]. intros [st w] [Hr He].
  unfold App.analyzeImage_resume.
  destruct r as [|[status [data|]]]; run_comp;
    try (split; [assumption | right; reflexivity]).
  destruct data as [| b | x | t | items | fields]; cbn;
    try (split; [assumption | right; reflexivity]).
  destruct (truthy (lookup "success" fields)) eqn:S; cbn.
  - split; [right; exact S | assumption].
  - split; [assumption | right; apply or_default_truthy; reflexivity].
Qed.

(** X11. In every state either screen can reach from its mount, the result
    cell is null or holds a body whose [success] is truthy (so it is an
    object, and reading its fields cannot throw), and the error cell is null
    or truthy (so the error view shows exactly when an error is set). *)
Theorem cells_hold_null_or_meaningful_data :
  forall (w : World) (evs : list Index.event) (evs' : list App.event),
    let i := fst (Index.run evs (Index.mount w)) in
    let a := fst (App.run evs' (App.mount w)) in
    (null_or_success (Index.results i) /\ null_or_truthy (Index.error i)) /\
    (null_or_success (App.results a) /\ null_or_truthy (App.error a)) /\
    (Index.results i <> JNull -> exists fields, Index.results i = JObj fields) /\
    (App.results a <> JNull -> exists fields, App.results a = JObj fields).
Proof.
  intros w evs evs' i a.
  assert (Hi : null_or_success (Index.results i) /\ null_or_truthy (Index.error i)).
  { apply (Index_run_maintains _ Index_handle_maintains_cells
             (fun s Hs => Hs) evs (Index.mount w)).
    split; left; reflexivity. }
  assert (Ha : null_or_success (App.results a) /\ null_or_truthy (App.error a)).
  { apply (App_run_maintains _ App_handle_maintains_cells
             (fun s Hs => Hs) evs' (App.mount w)).
    split; left; reflexivity. }
  split; [exact Hi|]. split; [exact Ha|].
  destruct Hi as [[Hi|Hi] _], Ha as [[Ha|Ha] _]; split; intros N;
    try contradiction.
  all: match goal with
       | H : truthy (prop ?v "success") = true |- exists f, ?v = JObj f =>
           destruct v; cbn in H; try discriminate H; eauto
       | _ => idtac
       end.
Qed.

(** *** What the user sees after an attempt *)

Lemma failure_message_truthy (connection : string) (r : Settled Response) :
  truthy (Some (JStr connection)) = true ->
  truthy (Some (failure_message connection r)) = true.
Proof.
  intros H. destruct r as [|[status [data|]]]; cbn; try exact H.
  destruct data; try exact H; apply or_default_truthy; reflexivity.
Qed.

Lemma Index_failed_run_state (r : Settled Response) (mode : Index.Mode)
  (st : Index.State) (w : World) (file : File) :
  succeeded r = false -> Index.selectedFile st = Some file ->
  fst (exec (Index.analyzeImage_run mode r) (st, w))
  = Index.mkState (Some file) (Index.previewUrl st) false
      (failure_message "Failed to analyze image" r)
      (Index.results st) (Index.apiHealth st) (Index.isDragging st).
Proof.
  intros F Hf.
  unfold Index.analyzeImage_run, Index.analyzeImage, exec, bind, read; cbn.
  rewrite Hf; cbn.
  match goal with
  | |- fst (snd (Index.analyzeImage_resume r (?st', ?w'))) = _ =>
      etransitivity; [exact (Index_failed_resume_state r st' w' F)|]
  end.
  cbn. now rewrite Hf.
Qed.

Lemma App_failed_run_state (r : Settled Response) (mode endpoint : string)
  (st : App.State) (w : World) (file : File) :
  succeeded r = false -> App.selectedFile st = Some file ->
  App.endpoint_of mode = Some endpoint ->
  fst (exec (App.analyzeImage_run mode r) (st, w))
  = App.mkState (Some file) (App.previewUrl st) false
      (failure_message "Failed to analyze image. Ensure Flask server is running." r)
      (App.results st) (App.apiHealth st).
Proof.
  intros F Hf Hm.
  unfold App.analyzeImage_run, App.analyzeImage, exec, bind, read; cbn.
  rewrite Hf; cbn. rewrite Hm; cbn.
  match goal with
  | |- fst (snd (App.analyzeImage_resume r (?st', ?w'))) = _ =>
      etransitivity; [exact (App_failed_resume_state r st' w' F)|]
  end.
  cbn. now rewrite Hf.
Qed.

Lemma falsy_is_valid_child (v : value) : truthy v = false -> valid_child v = true.
Proof. destruct v as [[| b | x | t | items | fields]|]; cbn; auto; discriminate. Qed.

Lemma failure_message_text (connection : string) (r : Settled Response) :
  (caught r = true -> valid_child (Some (failure_message connection r)) = true) /\
  (forall response data text,
      r = Resolved response -> json response = Some data ->
      prop data "error" = Some (JStr text) ->
      valid_child (Some (failure_message connection r)) = true).
Proof.
  split.
  - destruct r as [|[status [data|]]]; cbn; try reflexivity.
    destruct data; cbn; try reflexivity; discriminate.
  - intros response data text -> J E. unfold failure_message. rewrite J.
    destruct data; cbn in E; try discriminate E.
    unfold prop. rewrite E. cbn.
    destruct (negb (text =? "")%string); reflexivity.
Qed.

(** X12. After a failed attempt the component of the styled screen returns
    the error panel with the message of that failure and nothing else: an
    earlier result, whatever its shape, is neither shown nor read.  React
    displays that panel when the message is a valid child -- always for a
    connection error, and for a server [error] that is a string, as the API
    documents -- and refuses it with its own error when the server sent an
    object as [error].  The plain screen does the same with its error section
    (stated here for the case that no earlier result is stored). *)
Theorem failed_attempt_shows_its_message :
  forall (si : Index.State) (sa : App.State) (w : World) (r : Settled Response)
         (mode : Index.Mode) (mode' endpoint : string) (file : File),
    succeeded r = false ->
    Index.selectedFile si = Some file ->
    App.selectedFile sa = Some file ->
    App.endpoint_of mode' = Some endpoint ->
    App.results sa = JNull ->
    let mi := failure_message "Failed to analyze image" r in
    let ma := failure_message
                "Failed to analyze image. Ensure Flask server is running." r in
    let i' := fst (exec (Index.analyzeImage_run mode r) (si, w)) in
    let a' := fst (exec (App.analyzeImage_run mode' r) (sa, w)) in
    Index.render_right i' = Normal (Index.ErrorPanel mi) /\
    Index.commit_right i'
      = (if valid_child (Some mi) then Normal (Index.ErrorPanel mi) else Throw Error) /\
    App.render_sections a' = Normal (App.mkSections (Blank (Some JNull)) (Shown ma)) /\
    App.commit_sections a'
      = (if valid_child (Some ma)
         then Normal (App.mkSections (Blank (Some JNull)) (Shown ma))
         else Throw Error) /\
    (caught r = true -> valid_child (Some mi) = true /\ valid_child (Some ma) = true) /\
    (forall response data text,
        r = Resolved response -> json response = Some data ->
        prop data "error" = Some (JStr text) ->
        valid_child (Some mi) = true /\ valid_child (Some ma) = true).
Proof.
  intros si sa w r mode mode' endpoint file F Hf Hf' Hm Hr mi ma i' a'.
  assert (Ri : Index.render_right i' = Normal (Index.ErrorPanel mi)).
  { unfold i'. rewrite (Index_failed_run_state r mode si w file F Hf).
    unfold Index.render_right. cbn [Index.results Index.error].
    rewrite (failure_message_truthy "Failed to analyze image" r eq_refl).
    rewrite andb_false_r. reflexivity. }
  assert (Ra : App.render_sections a'
               = Normal (App.mkSections (Blank (Some JNull)) (Shown ma))).
  { unfold a'. rewrite (App_failed_run_state r mode' endpoint sa w file F Hf' Hm).
    unfold App.render_sections. cbn [App.results App.error App.isLoading].
    rewrite Hr.
    rewrite (failure_message_truthy
               "Failed to analyze image. Ensure Flask server is running." r eq_refl).
    reflexivity. }
  split; [exact Ri|]. split; [|split; [exact Ra|split; [|split]]].
  - unfold Index.commit_right. rewrite Ri. reflexivity.
  - unfold App.commit_sections. rewrite Ra. reflexivity.
  - intros C. split; apply failure_message_text; exact C.
  - intros response data text E J P.
    split; apply (proj2 (failure_message_text _ r) response data text E J P).
Qed.

Lemma failed_attempt_shows_its_message_witness :
  let img := mkFile "cat.png" "image/png" [] in
  let broken := JObj [("success", JBool true); ("predicted_action", JStr "running")] in
  let si := Index.mkState (Some img) (Some 0%nat) false JNull broken true false in
  let sa := App.mkState (Some img) (Some 0%nat) false JNull JNull true in
  let text := Resolved (mkResponse 200 (Some (JObj [("success", JBool false);
                                                  ("error", JStr "no person found")]))) in
  let object := Resolved (mkResponse 500 (Some (JObj [("error", JObj [("code", JStr "E42")])]))) in
  Index.commit_right (fst (exec (Index.analyzeImage_run Index.action text)
                             (si, empty_world None)))
    = Normal (Index.ErrorPanel (JStr "no person found")) /\
  App.commit_sections (fst (exec (App.analyzeImage_run "action" object)
                              (sa, empty_world None)))
    = Throw Error.
Proof.
  intros img broken si sa text object.
  split.
  - apply (failed_attempt_shows_its_message si sa (empty_world None) text
             Index.action "action" "/api/action" img);
      reflexivity.
  - apply (failed_attempt_shows_its_message si sa (empty_world None) object
             Index.action "action" "/api/action" img);
      reflexivity.
Defined.

Lemma Index_successful_run_state (mode : Index.Mode) (status : nat) (data : JSON)
  (st : Index.State) (w : World) (file : File) :
  truthy (prop data "success") = true -> Index.selectedFile st = Some file ->
  fst (exec (Index.analyzeImage_run mode (Resolved (mkResponse status (Some data))))
         (st, w))
  = Index.mkState (Some file) (Index.previewUrl st) false JNull data
      (Index.apiHealth st) (Index.isDragging st).
Proof.
  intros S Hf.
  unfold Index.analyzeImage_run, Index.analyzeImage, Index.analyzeImage_resume.
  unfold exec, bind, read; cbn. rewrite Hf; run_comp.
  destruct data as [| b | x | t | items | fields]; cbn in S; try discriminate.
  cbn. rewrite S. cbn. now rewrite Hf.
Qed.

Lemma App_successful_run_state (mode endpoint : string) (status : nat) (data : JSON)
  (st : App.State) (w : World) (file : File) :
  truthy (prop data "success") = true -> App.selectedFile st = Some file ->
  App.endpoint_of mode = Some endpoint ->
  fst (exec (App.analyzeImage_run mode (Resolved (mkResponse status (Some data))))
         (st, w))
  = App.mkState (Some file) (App.previewUrl st) false JNull data (App.apiHealth st).
Proof.
  intros S Hf Hm.
  unfold App.analyzeImage_run, App.analyzeImage, App.analyzeImage_resume.
  unfold exec, bind, read; cbn. rewrite Hf; cbn. rewrite Hm; run_comp.
  destruct data as [| b | x | t | items | fields]; cbn in S; try discriminate.
  cbn. rewrite S. cbn. now rewrite Hf.
Qed.

Lemma render_results_without_action (results : JSON) :
  results <> JNull -> action_shown results = false ->
  let view := mkResultsView
                (if truthy (prop results "caption")
                 then Shown (prop results "caption")
                 else Blank (prop results "caption"))
                (Blank (prop results "predicted_action")) in
  Index.render_results results = Normal view /\
  App.render_results results = Normal view.
Proof.
  intros N S view. unfold Index.render_results, App.render_results, action_shown in *.
  rewrite !(get_prop results _ N). cbn [cbind].
  apply orb_false_elim in S as [A P]. rewrite A. cbn [cbind]. rewrite P.
  split; reflexivity.
Qed.

(** X13. For a successful response without an action part -- what the
    caption endpoint sends -- the component of either screen returns exactly
    the caption and no action card, without reading anything that could
    throw.  React displays it when the caption is a valid child (a string, as
    the API documents, or absent) and refuses it with its own error when the
    caption is an object. *)
Theorem caption_response_shows_exactly_the_caption :
  forall (si : Index.State) (sa : App.State) (w : World) (status : nat) (data : JSON)
         (mode : Index.Mode) (mode' endpoint : string) (file : File),
    truthy (prop data "success") = true ->
    action_shown data = false ->
    Index.selectedFile si = Some file ->
    App.selectedFile sa = Some file ->
    App.endpoint_of mode' = Some endpoint ->
    let r := Resolved (mkResponse status (Some data)) in
    let view := mkResultsView
                  (if truthy (prop data "caption")
                   then Shown (prop data "caption")
                   else Blank (prop data "caption"))
                  (Blank (prop data "predicted_action")) in
    let i' := fst (exec (Index.analyzeImage_run mode r) (si, w)) in
    let a' := fst (exec (App.analyzeImage_run mode' r) (sa, w)) in
    Index.render_right i' = Normal (Index.ResultsPanel view) /\
    Index.commit_right i'
      = (if valid_child (prop data "caption")
         then Normal (Index.ResultsPanel view) else Throw Error) /\
    App.render_sections a' = Normal (App.mkSections (Shown view) (Blank (Some JNull))) /\
    App.commit_sections a'
      = (if valid_child (prop data "caption")
         then Normal (App.mkSections (Shown view) (Blank (Some JNull)))
         else Throw Error) /\
    (forall text, prop data "caption" = Some (JStr text) ->
                  valid_child (prop data "caption") = true).
Proof.
  intros si sa w status data mode mode' endpoint file S A Hf Hf' Hm r view i' a'.
  assert (N : data <> JNull) by (intros ->; discriminate S).
  assert (T : truthy (Some data) = true)
    by (destruct data; cbn in S; try discriminate S; reflexivity).
  destruct (render_results_without_action data N A) as [Ri Ra].
  assert (Hi : Index.render_right i' = Normal (Index.ResultsPanel view)).
  { unfold i', r.
    rewrite (Index_successful_run_state mode status data si w file S Hf).
    unfold Index.render_right. cbn [Index.results Index.error].
    rewrite T, Ri. reflexivity. }
  assert (Ha : App.render_sections a'
               = Normal (App.mkSections (Shown view) (Blank (Some JNull)))).
  { unfold a', r.
    rewrite (App_successful_run_state mode' endpoint status data sa w file S Hf' Hm).
    unfold App.render_sections. cbn [App.results App.error App.isLoading].
    rewrite T, Ra. reflexivity. }
  assert (V : valid_view view = valid_child (prop data "caption")).
  { unfold view, valid_view, action_shown in *. cbn [caption_slot action_slot valid_slot].
    apply orb_false_elim in A as [_ P].
    rewrite (falsy_is_valid_child _ P), andb_true_r.
    destruct (truthy (prop data "caption")); reflexivity. }
  split; [exact Hi|]. split; [|split; [exact Ha|split]].
  - unfold Index.commit_right. rewrite Hi. unfold committed.
    cbn [cbind Index.valid_panel]. now rewrite V.
  - unfold App.commit_sections. rewrite Ha. unfold committed, App.valid_sections.
    cbn [cbind App.results_section App.error_section valid_slot].
    rewrite V. cbn [valid_child valid_child_json]. rewrite andb_true_r. reflexivity.
  - intros text ->. reflexivity.
Qed.

Lemma caption_response_shows_exactly_the_caption_witness :
  let img := mkFile "cat.png" "image/png" [] in
  let data := JObj [("success", JBool true); ("caption", JStr "a cat on a sofa")] in
  let si := Index.mkState (Some img) (Some 0%nat) false (JStr "old error") JNull true false in
  let sa := App.mkState (Some img) (Some 0%nat) false (JStr "old error") JNull true in
  let r := Resolved (mkResponse 200 (Some data)) in
  let view := mkResultsView (Shown (Some (JStr "a cat on a sofa"))) (Blank undefined) in
  Index.commit_right (fst (exec (Index.analyzeImage_run Index.caption r)
                             (si, empty_world None)))
    = Normal (Index.ResultsPanel view) /\
  App.commit_sections (fst (exec (App.analyzeImage_run "caption" r)
                              (sa, empty_world None)))
    = Normal (App.mkSections (Shown view) (Blank (Some JNull))).
Proof.
  intros img data si sa r view.
  split;
    apply (caption_response_shows_exactly_the_caption si sa (empty_world None)
             200%nat data Index.caption "caption" "/api/caption" img);
    reflexivity.
Defined.

(** *** One request in flight (styled screen) *)

Lemma Index_sample_resume_stops_loading (r : Settled Blob) (s : Sys Index.State) :
  Index.isLoading (fst (exec (Index.loadSampleImage_resume r) s)) = false.
Proof. destruct s as [st w], r; reflexivity. Qed.

Lemma Index_idle_keeps_isLoading (ev : Index.event) :
  match ev with
  | Index.ClickSample | Index.SampleSettled _
  | Index.ClickAnalyze _ | Index.AnalyzeSettled _ => False
  | _ => True
  end ->
  keeps (fun s => Index.isLoading (fst s)) (Index.handle ev).
Proof. destruct ev; intros H; try contradiction; keeps_Index. Qed.

Lemma Index_step_single_flight (ev : Index.event) (session session' : Index.Session) :
  (Index.analyses session + Index.samples session
   = if Index.isLoading (fst (Index.screen session)) then 1 else 0)%nat ->
  Index.step ev session = Some session' ->
  (Index.analyses session' + Index.samples session'
   = if Index.isLoading (fst (Index.screen session')) then 1 else 0)%nat.
Proof.
  destruct session as [[st w] na ns]. unfold Index.step. cbn [Index.screen fst
    Index.analyses Index.samples].
  intros J. destruct (negb (Index.enabled st ev)) eqn:En; [discriminate|].
  apply negb_false_iff in En.
  pose proof (fun idle => Index_idle_keeps_isLoading ev idle (st, w)) as K.
  cbn [fst] in K.
  destruct ev;
    try (intros [= <-]; rewrite <- (K Logic.I) in J; exact J); clear K.
  - (* the sample is asked for *)
    intros [= <-]; cbn [Index.screen Index.analyses Index.samples Index.commit fst].
    unfold Index.enabled, Index.render_left in En.
    destruct (Index.previewUrl st); [discriminate|].
    apply negb_true_iff in En. rewrite En in J. cbn. lia.
  - (* the sample settles *)
    destruct ns as [|ns]; intros [= <-];
      cbn [Index.screen Index.analyses Index.samples Index.commit fst].
    cbn [Index.handle]. rewrite Index_sample_resume_stops_loading.
    destruct (Index.isLoading st); lia.
  - (* an analysis is asked for *)
    intros [= <-]; cbn [Index.screen Index.analyses Index.samples Index.commit fst].
    unfold Index.enabled, Index.render_left in En.
    destruct (Index.previewUrl st); [|discriminate].
    apply negb_true_iff in En. rewrite En in J.
    unfold Index.handle, Index.analyzeImage, exec, outcome, bind, read; cbn.
    destruct (Index.selectedFile st); cbn; [lia | rewrite En; lia].
  - (* an analysis settles *)
    destruct na as [|na]; intros [= <-];
      cbn [Index.screen Index.analyses Index.samples Index.commit fst].
    cbn [Index.handle].
    rewrite (proj1 (Index_resume_stops_loading r (st, w))).
    destruct (Index.isLoading st); lia.
Qed.

Lemma Index_steps_single_flight (evs : list Index.event) :
  forall session session',
    (Index.analyses session + Index.samples session
     = if Index.isLoading (fst (Index.screen session)) then 1 else 0)%nat ->
    Index.steps evs session = Some session' ->
    (Index.analyses session' + Index.samples session'
     = if Index.isLoading (fst (Index.screen session')) then 1 else 0)%nat.
Proof.
  induction evs as [|ev evs IH]; intros session session' J; cbn.
  - intros [= <-]. exact J.
  - destruct (Index.step ev session) as [next|] eqn:E; [|discriminate].
    apply IH. exact (Index_step_single_flight ev session next J E).
Qed.

(** X14. In the styled screen, where the sample button and the analysis
    buttons are disabled while the loading flag is on, at most one
    user-triggered request is in flight, and the loading flag is on exactly
    while one is, as long as every click goes through a control of the
    current render: this holds after every such sequence of events, whatever
    the order in which clicks, resets and responses interleave.  (A click on
    a panel that is still animating out runs a handler of an earlier render
    and is outside this statement.) *)
Theorem Index_one_request_in_flight :
  forall (w : World) (evs : list Index.event) (session : Index.Session),
    Index.steps evs (Index.session_at_mount w) = Some session ->
    (Index.analyses session + Index.samples session <= 1)%nat /\
    (Index.isLoading (fst (Index.screen session)) = true <->
     (Index.analyses session + Index.samples session = 1)%nat).
Proof.
  intros w evs session H.
  pose proof (Index_steps_single_flight evs (Index.session_at_mount w) session
                eq_refl H) as J.
  destruct (Index.isLoading (fst (Index.screen session))).
  - split; [lia|]. split; intros; [exact J | reflexivity].
  - split; [lia|]. split; intros E; [discriminate E | lia].
Qed.

Lemma Index_one_request_in_flight_witness :
  let img := mkFile "cat.png" "image/png" [] in
  let evs := [Index.ClickSample; Index.DragOver; Index.Drop [img];
              Index.SampleSettled Rejected; Index.ClickAnalyze Index.caption;
              Index.ClickReset; Index.InputChange [img]] in
  exists session,
    Index.steps evs (Index.session_at_mount (empty_world (Some ""))) = Some session /\
    (Index.analyses session + Index.samples session <= 1)%nat /\
    Index.isLoading (fst (Index.screen session)) = true.
Proof.
  intros img evs.
  destruct (Index.steps evs (Index.session_at_mount (empty_world (Some ""))))
    as [session|] eqn:E; [|discriminate E].
  exists session. split; [reflexivity|].
  split.
  - apply (Index_one_request_in_flight (empty_world (Some "")) evs session E).
  - revert E. vm_compute. intros [= <-]. reflexivity.
Defined.

(** *** The plain screen mirrors the styled one *)

Lemma commit_ref_follows (rendered : bool) (w : World) :
  ref_follows_input rendered (commit_ref rendered w).
Proof.
  unfold ref_follows_input. destruct rendered; cbn; split; intros H;
    first [discriminate H | reflexivity].
Qed.

Lemma same_calls_refl (log : list Request) : Forall2 same_call log log.
Proof.
  induction log as [|r log IH]; constructor; [|exact IH].
  repeat split. now left.
Qed.

Lemma same_calls_snoc (li la : list Request) (ri ra : Request) :
  Forall2 same_call li la -> same_call ri ra ->
  Forall2 same_call (li ++ [ri]) (la ++ [ra]).
Proof. intros H C. apply Forall2_app; [exact H|]. constructor; [exact C|constructor]. Qed.

Ltac same_screen_leaf :=
  repeat match goal with
         | |- _ /\ _ => split
         end;
  first
    [ assumption
    | reflexivity
    | apply same_calls_snoc; [assumption|];
      repeat split; first [now left | right; eexists; split; reflexivity]
    | left; reflexivity
    | left; assumption
    | right; split; reflexivity
    | unfold ref_follows_input; cbn; split; intros E;
      first [discriminate E | reflexivity] ].

Lemma same_screen_step (ev : Index.event) (i : Sys Index.State) (a : Sys App.State) :
  no_drop ev = true -> same_screen i a ->
  same_screen (Index.commit (exec (Index.handle ev) i)) (App.run (plain_events ev) a).
Proof.
  destruct i as [[f p l e r h d] [qi ti ci ui fi]],
           a as [[f' p' l' e' r' h'] [qa ta ca ua fa]].
  unfold same_screen; cbn [fst snd Index.selectedFile Index.previewUrl Index.isLoading
    Index.results Index.apiHealth Index.error App.selectedFile App.previewUrl
    App.isLoading App.results App.apiHealth App.error objectURLs fileInput requests].
  intros D (<- & <- & <- & <- & <- & <- & <- & Hf & Hq & He).
  assert (Hc : (p = None /\ exists v, fi = Some v) \/ (exists u, p = Some u /\ fi = None)).
  { unfold ref_follows_input in Hf; cbn in Hf. destruct Hf as [H1 H2].
    destruct p as [u|], fi as [v|]; eauto;
      exfalso; first [discriminate (H1 eq_refl) | discriminate (H2 eq_refl)]. }
  clear Hf.
  destruct ev as [files| | |files| |s|mode|s| | |s]; try discriminate D;
    cbn [plain_events App.run];
    destruct Hc as [[-> [v ->]] | [u [-> ->]]]; unfold ref_follows_input.
  all: try (cbn; same_screen_leaf; fail).
  all: try (destruct files as [|file rest]; cbn; [same_screen_leaf|];
            destruct (startsWith (file_type file) "image/"); cbn; same_screen_leaf; fail).
  all: try (destruct s as [|blob]; cbn; same_screen_leaf; fail).
  all: try (unfold Index.handle, App.handle, Index.analyzeImage, App.analyzeImage,
              exec, bind, read; cbn;
            destruct f as [file|]; cbn; [|same_screen_leaf];
            destruct mode; cbn; same_screen_leaf; fail).
  all: try (unfold Index.handle, App.handle, Index.analyzeImage_resume,
              App.analyzeImage_resume; run_comp;
            destruct s as [|[status [data|]]]; cbn;
              [same_screen_leaf| |same_screen_leaf];
            destruct data as [| b | x | t | items | fields]; cbn;
              try (same_screen_leaf; fail);
            destruct (truthy (lookup "success" fields)); cbn; same_screen_leaf; fail).
  all: unfold Index.handle, App.handle, Index.checkHealth_resume,
         App.checkHealth_resume; run_comp;
       destruct s as [|[status [data|]]]; cbn; try (same_screen_leaf; fail);
       destruct data as [| b | x | t | items | fields]; cbn;
         try (same_screen_leaf; fail);
       destruct (strict_eq_string (lookup "status" fields) "healthy"); cbn;
         same_screen_leaf.
Qed.

(** X15. The plain screen mirrors the styled one.  Replaying on the plain
    screen what the user does on the styled screen (drops apart, which only
    the styled screen has) leaves both in the same situation: same selected
    file, preview, loading flag, stored result and connectivity, same object
    URLs and file input, the same calls in the same order -- same method,
    same form data, same path under each screen's base address -- and the
    same error message except that the two word the connection error
    differently. *)
Theorem plain_screen_mirrors_styled_screen :
  forall (w : World) (evs : list Index.event),
    forallb no_drop evs = true ->
    same_screen (Index.run evs (Index.mount w))
                (App.run (flat_map plain_events evs) (App.mount w)).
Proof.
  intros w evs.
  assert (H0 : same_screen (Index.mount w) (App.mount w)).
  { unfold same_screen, Index.mount, App.mount, Index.commit, App.commit; cbn.
    repeat match goal with |- _ /\ _ => split end; try reflexivity.
    - apply (commit_ref_follows true).
    - apply same_calls_snoc; [apply same_calls_refl|].
      repeat split. right. exists "/health". split; reflexivity.
    - now left. }
  revert H0. generalize (Index.mount w) as i, (App.mount w) as a.
  induction evs as [|ev evs IH]; intros i a H0 Hd; cbn in *; [exact H0|].
  apply andb_prop in Hd as [Hev Hevs].
  rewrite App_run_app. apply IH; [|exact Hevs].
  apply same_screen_step; assumption.
Qed.

Lemma plain_screen_mirrors_styled_screen_witness :
  let img := mkFile "cat.png" "image/png" [] in
  let evs := [Index.DragOver; Index.InputChange [img]; Index.ClickAnalyze Index.combined;
              Index.AnalyzeSettled Rejected; Index.ClickDismiss; Index.ClickReset] in
  same_screen (Index.run evs (Index.mount (empty_world None)))
    (App.run [App.InputChange [img]; App.ClickAnalyze "combined";
              App.AnalyzeSettled Rejected; App.ClickDismiss; App.ClickReset]
       (App.mount (empty_world None))).
Proof.
  intros img evs.
  apply (plain_screen_mirrors_styled_screen (empty_world None) evs).
  reflexivity.
Defined.
